(** * enhanced_whitespace_cleaner.py: scan, render, clean and undo/redo history

    A shallow embedding of the text engine of
    [src/enhanced_whitespace_cleaner.py]: the watermark scan of
    [WatermarkScanThread.run], and the handlers [detect_whitespace],
    [clean_whitespace], [undo], [redo] and [clear_text] of
    [WhitespaceCleaner].

    A Python [str] is a list of code points.  Python exceptions are values of
    [exn]; a computation that may raise returns [exn + A].  The handlers of
    the window thread its mutable fields through a state monad that keeps the
    state reached when an exception is raised. *)

From Stdlib Require Import List ZArith Bool Lia String Ascii Uint63 Floats.
From Stdlib Require Import Reals Lra.
From Stdlib Require Import Sorted Permutation.
Import ListNotations.

Set Warnings "-inexact-float".

Open Scope Z_scope.

(** ** Python values *)

Definition codepoint := Z.
Definition str := list codepoint.

(** An ASCII literal of the source as a [str]. *)
Definition lit (s : string) : str :=
  map (fun a => Z.of_N (N_of_ascii a)) (list_ascii_of_string s).

Inductive exn :=
| AttributeError (module attr : string)
| TypeError
| ValueError
| IndexError
| OverflowError
| RecursionError
| ReError.

Definition result (A : Type) : Type := (exn + A)%type.

Definition ok {A} (a : A) : result A := inr a.
Definition raise {A} (e : exn) : result A := inl e.
Definition rbind {A B} (m : result A) (k : A -> result B) : result B :=
  match m with
  | inl e => inl e
  | inr a => k a
  end.

Declare Scope result_scope.
Delimit Scope result_scope with result.
Notation "x <- m ;; k" := (rbind m (fun x => k))
  (at level 61, m at next level, right associativity) : result_scope.

(** A Python number as line 64 produces it: the [int] 0 or a [float]. *)
Inductive pynum :=
| PyInt (z : Z)
| PyFloat (f : float).

Module Py.

Definition len {A} (l : list A) : Z := Z.of_nat (List.length l).

Fixpoint str_eqb (a b : str) : bool :=
  match a, b with
  | [], [] => true
  | x :: a', y :: b' => (x =? y) && str_eqb a' b'
  | _, _ => false
  end.

(** [c in [..]] on code points. *)
Definition mem (c : codepoint) (l : list codepoint) : bool :=
  existsb (Z.eqb c) l.

(** [s.replace(old, new)] for a one-character [old]. *)
Definition replace (old : codepoint) (new : str) (s : str) : str :=
  flat_map (fun c => if c =? old then new else [c]) s.

(** [re.sub(cls, f, s)] for a pattern [cls] that is one character class:
    every matching character is replaced by what the callback returns. *)
Definition sub_class (cls : codepoint -> bool) (f : codepoint -> str)
    (s : str) : str :=
  flat_map (fun c => if cls c then f c else [c]) s.

(** [re.sub(cls+, rep, s)]: every maximal run of characters of the class
    is replaced by [rep]; [in_run] says that the previous character was in
    the class. *)
Fixpoint sub_runs (cls : codepoint -> bool) (rep : str) (in_run : bool)
    (s : str) : str :=
  match s with
  | [] => []
  | c :: s' =>
      if cls c
      then (if in_run then [] else rep) ++ sub_runs cls rep true s'
      else c :: sub_runs cls rep false s'
  end.

(** [str.isspace] on one character, which is also the class [\s] of [re]
    on [str] patterns (CPython's [_PyUnicode_IsWhitespace]). *)
Definition isspace (c : codepoint) : bool :=
  ((9 <=? c) && (c <=? 13)) || ((28 <=? c) && (c <=? 32))
  || (c =? 133) || (c =? 160) || (c =? 5760)
  || ((8192 <=? c) && (c <=? 8202))
  || (c =? 8232) || (c =? 8233) || (c =? 8239) || (c =? 8287)
  || (c =? 12288).

(** The line boundaries of [str.splitlines]. *)
Definition islinebreak (c : codepoint) : bool :=
  ((10 <=? c) && (c <=? 13)) || ((28 <=? c) && (c <=? 30))
  || (c =? 133) || (c =? 8232) || (c =? 8233).

(** [s.splitlines()]: [cur] is the line read so far, reversed.  A line
    break ends a line, ["\r\n"] counts as one break, and no empty line is
    produced after the last break. *)
Fixpoint splitlines_from (cur : str) (s : str) : list str :=
  match s with
  | [] => match cur with [] => [] | _ => [rev cur] end
  | c :: s' =>
      if islinebreak c
      then rev cur ::
           match s' with
           | d :: s'' =>
               if (c =? 13) && (d =? 10)
               then splitlines_from [] s''
               else splitlines_from [] s'
           | [] => splitlines_from [] s'
           end
      else splitlines_from (c :: cur) s'
  end.

Definition splitlines (s : str) : list str := splitlines_from [] s.

Fixpoint lstrip (s : str) : str :=
  match s with
  | c :: s' => if isspace c then lstrip s' else s
  | [] => []
  end.

Definition strip (s : str) : str := rev (lstrip (rev (lstrip s))).

(** [sep.join(parts)]. *)
Fixpoint join (sep : str) (parts : list str) : str :=
  match parts with
  | [] => []
  | [p] => p
  | p :: ps => p ++ sep ++ join sep ps
  end.

(** [l[:stop]], with Python's reading of a negative [stop]. *)
Definition slice_to {A} (l : list A) (stop : Z) : list A :=
  let stop' := if stop <? 0 then Z.max 0 (stop + len l) else stop in
  firstn (Z.to_nat stop') l.

(** [l[i]], with Python's reading of a negative [i]; out of range it
    raises [IndexError]. *)
Definition getitem {A} (l : list A) (i : Z) : result A :=
  let i' := if i <? 0 then i + len l else i in
  if (0 <=? i') && (i' <? len l)
  then match nth_error l (Z.to_nat i') with
       | Some x => ok x
       | None => raise IndexError
       end
  else raise IndexError.

(** Upper-case hexadecimal digits of a non-negative number, as the format
    [X] prints them. *)
Definition hex_digit (d : Z) : codepoint :=
  if d <? 10 then 48 + d else 55 + d.

Fixpoint hex_from (fuel : nat) (z : Z) : str :=
  match fuel with
  | O => []
  | S fuel' =>
      if z <? 16 then [hex_digit z]
      else hex_from fuel' (z / 16) ++ [hex_digit (z mod 16)]
  end.

(** The format [:04X] of a code point (at most six digits). *)
Definition format_04X (z : Z) : str :=
  let d := hex_from 8 z in
  repeat 48 (4 - List.length d) ++ d.

End Py.

(** The nine code points of the character class that lines 54, 215, 273
    and 307 all spell out. *)
Definition ZWSP : codepoint := 0x200B.
Definition ZWNJ : codepoint := 0x200C.
Definition ZWJ : codepoint := 0x200D.
Definition NNBSP : codepoint := 0x202F.
Definition NBSP : codepoint := 0x00A0.
Definition WJ : codepoint := 0x2060.
Definition ZWNBSP : codepoint := 0xFEFF.
Definition EM_DASH : codepoint := 0x2014.
Definition EN_DASH : codepoint := 0x2013.

Definition unicode_pattern_chars : list codepoint :=
  [ZWSP; ZWNJ; ZWJ; NNBSP; NBSP; WJ; ZWNBSP; EM_DASH; EN_DASH].

Definition unicode_pattern (c : codepoint) : bool :=
  Py.mem c unicode_pattern_chars.

(** ** WatermarkScanThread.run (lines 51-74) *)

(** The public names of Python's module [re] (its [__all__] over the
    releases 3.8 to 3.13); the module also holds private helpers, which the
    scan does not ask for.  [log2] is no name of [re]: the base-2 logarithm
    is [math.log2], and the file does not import [math]. *)
Definition re_names : list string :=
  ["match"; "fullmatch"; "search"; "sub"; "subn"; "split"; "findall";
   "finditer"; "compile"; "purge"; "template"; "escape"; "error";
   "PatternError"; "Pattern"; "Match"; "A"; "I"; "L"; "M"; "S"; "X"; "U";
   "T"; "ASCII"; "IGNORECASE"; "LOCALE"; "MULTILINE"; "DOTALL"; "VERBOSE";
   "UNICODE"; "TEMPLATE"; "DEBUG"; "NOFLAG"; "RegexFlag"]%string.

(** An attribute of [re], known by its name. *)
Inductive pyobj :=
| ReAttr (name : string).

(** [re.<attr>]: the attribute, or [AttributeError]. *)
Definition re_getattr (attr : string) : result pyobj :=
  if existsb (String.eqb attr) re_names
  then ok (ReAttr attr)
  else raise (AttributeError "re" attr).

(** [f(x) * p] for an attribute [f] of [re] and floats [x] and [p].  No
    attribute of [re] maps a float to a number: the call raises (ValueError
    for the flag class, TypeError for the functions, flags and other
    classes), or it builds an exception object and the product raises
    TypeError.  [run] never gets here, since the only attribute it asks for
    is absent. *)
Definition call_times (f : pyobj) (x p : float) : result float :=
  match f with
  | ReAttr name =>
      if String.eqb name "RegexFlag" then raise ValueError
      else raise TypeError
  end.

(** [int] to [float], exact below 2^53, and the true division [a / b] of
    two such ints. *)
Definition float_of_int (z : Z) : float :=
  if z <? 0 then PrimFloat.opp (PrimFloat.of_uint63 (Uint63.of_Z (- z)))
  else PrimFloat.of_uint63 (Uint63.of_Z z).

Definition truediv (a b : Z) : float :=
  PrimFloat.div (float_of_int a) (float_of_int b).

Definition py_add (a : pynum) (x : float) : pynum :=
  match a with
  | PyInt z => PyFloat (PrimFloat.add (float_of_int z) x)
  | PyFloat f => PyFloat (PrimFloat.add f x)
  end.

Definition py_neg (a : pynum) : pynum :=
  match a with
  | PyInt z => PyInt (- z)
  | PyFloat f => PyFloat (PrimFloat.opp f)
  end.

(** [a < x] for a float [x]. *)
Definition py_lt (a : pynum) (x : float) : bool :=
  match a with
  | PyInt z => PrimFloat.ltb (float_of_int z) x
  | PyFloat f => PrimFloat.ltb f x
  end.

(** [unicodedata.name(char, "Unknown")] on the nine code points of the
    pattern, the only ones line 57 passes to it. *)
Definition unicodedata_name (c : codepoint) : option str :=
  if c =? ZWSP then Some (lit "ZERO WIDTH SPACE")
  else if c =? ZWNJ then Some (lit "ZERO WIDTH NON-JOINER")
  else if c =? ZWJ then Some (lit "ZERO WIDTH JOINER")
  else if c =? NNBSP then Some (lit "NARROW NO-BREAK SPACE")
  else if c =? NBSP then Some (lit "NO-BREAK SPACE")
  else if c =? WJ then Some (lit "WORD JOINER")
  else if c =? ZWNBSP then Some (lit "ZERO WIDTH NO-BREAK SPACE")
  else if c =? EM_DASH then Some (lit "EM DASH")
  else if c =? EN_DASH then Some (lit "EN DASH")
  else None.

(** The dictionary that [run] emits. *)
Record stats := {
  invisible_chars : Z;
  details : list str;
  word_entropy : pynum;
  ai_likelihood : string;
  top_words : list str
}.

Module Scan.
Section Run.

(** Python's Unicode tables, which the repository does not hold:
    [str.isalnum] on one character, and [str.lower]. *)
Variable isalnum : codepoint -> bool.
Variable lower : str -> str.

(** The class [\w] of [re] on a [str] pattern. *)
Definition isword (c : codepoint) : bool := isalnum c || (c =? 95).

(** Line 58: [f"{char} (U+{ord(char):04X}: {name})"]. *)
Definition describe (char : codepoint) : str :=
  let name :=
    match unicodedata_name char with
    | Some n => n
    | None => lit "Unknown"
    end in
  [char] ++ lit " (U+" ++ Py.format_04X char ++ lit ": " ++ name ++ lit ")".

(** Lines 53-58: one entry per match of the pattern, in the order in which
    [finditer] meets them. *)
Fixpoint scan_invisible (text : str) : list str :=
  match text with
  | [] => []
  | c :: text' =>
      if unicode_pattern c
      then describe c :: scan_invisible text'
      else scan_invisible text'
  end.

(** [re.findall(r'\b\w+\b', s)]: [cur] is the run of word characters read
    so far, reversed.  A match starts where a word character follows a
    non-word character or the start, [\w+] takes the whole run, and the
    closing [\b] holds at its end. *)
Fixpoint findall_words_from (cur : str) (s : str) : list str :=
  match s with
  | [] => match cur with [] => [] | _ => [rev cur] end
  | c :: s' =>
      if isword c then findall_words_from (c :: cur) s'
      else match cur with
           | [] => findall_words_from [] s'
           | _ => rev cur :: findall_words_from [] s'
           end
  end.

(** Line 61. *)
Definition words_of (text : str) : list str :=
  findall_words_from [] (lower text).

(** [Counter(words)]: a dictionary in insertion order. *)
Fixpoint counter_add (w : str) (c : list (str * Z)) : list (str * Z) :=
  match c with
  | [] => [(w, 1)]
  | (k, n) :: c' =>
      if Py.str_eqb k w then (k, n + 1) :: c'
      else (k, n) :: counter_add w c'
  end.

Definition Counter (ws : list str) : list (str * Z) :=
  fold_left (fun c w => counter_add w c) ws [].

(** [most_common(n)]: the items by decreasing count, equal counts in
    insertion order, cut to the first [n]. *)
Fixpoint insert_by_count (x : str * Z) (l : list (str * Z))
    : list (str * Z) :=
  match l with
  | [] => [x]
  | y :: l' =>
      if snd x <? snd y then y :: insert_by_count x l' else x :: l
  end.

Definition most_common (n : nat) (c : list (str * Z)) : list (str * Z) :=
  firstn n (fold_right insert_by_count [] c).

(** One element of the generator of line 64:
    [(count / len(words)) * re.log2(count / len(words) + 1e-10)].  The left
    factor is evaluated first, then the attribute, then the argument and
    the call. *)
Definition entropy_term (n : Z) (count : Z) : result float :=
  let p := truediv count n in
  (log2 <- re_getattr "log2" ;;
   call_times log2 (PrimFloat.add (truediv count n) 1e-10%float) p)%result.

(** [sum(...)] over the generator: the elements are produced one at a time
    and the first exception ends the sum. *)
Fixpoint sum_gen (acc : pynum) (n : Z) (counts : list Z) : result pynum :=
  match counts with
  | [] => ok acc
  | count :: counts' =>
      (x <- entropy_term n count ;;
       sum_gen (py_add acc x) n counts')%result
  end.

(** Line 64. *)
Definition entropy_of (words : list str) (word_counter : list (str * Z))
    : result pynum :=
  match words with
  | [] => ok (PyInt 0)
  | _ =>
      (s <- sum_gen (PyInt 0) (Py.len words) (map snd word_counter) ;;
       ok (py_neg s))%result
  end.

(** [run]: the dictionary handed to [finished.emit], or the exception that
    ends the thread before anything is emitted. *)
Definition run (text : str) : result stats :=
  let invisible := scan_invisible text in
  let words := words_of text in
  let word_counter := Counter words in
  let top := map fst (most_common 10 word_counter) in
  (entropy <- entropy_of words word_counter ;;
   let likelihood := if py_lt entropy 4.5%float then "High"%string else "Low"%string in
   ok {| invisible_chars := Py.len invisible;
         details := firstn 10 invisible;
         word_entropy := entropy;
         ai_likelihood := likelihood;
         top_words := top |})%result.

End Run.
End Scan.

(** Python's tables on Basic Latin, to run the scan on ASCII text. *)
Definition ascii_isalnum (c : codepoint) : bool :=
  ((48 <=? c) && (c <=? 57)) || ((65 <=? c) && (c <=? 90))
  || ((97 <=? c) && (c <=? 122)).

Definition ascii_lower (s : str) : str :=
  map (fun c => if (65 <=? c) && (c <=? 90) then c + 32 else c) s.

(** ** The entropy in the words of the specification *)

(** Section 4.3 of the specification: minus the sum over the distinct words
    of [p * log2 (p + 1e-10)] with [p = count / total], and 0 when there is
    no word; in exact arithmetic, with the base-2 logarithm of the reals. *)
Module EntropySpec.

Definition log2 (x : R) : R := (ln x / ln 2)%R.
Definition epsilon : R := (/ 10 ^ 10)%R.

Definition term (total count : Z) : R :=
  (IZR count / IZR total * log2 (IZR count / IZR total + epsilon))%R.

Definition entropy (counts : list Z) : R :=
  let total := fold_right Z.add 0 counts in
  match counts with
  | [] => 0%R
  | _ => (- fold_right (fun c acc => term total c + acc) 0 counts)%R
  end.

End EntropySpec.

(** ** WhitespaceCleaner (lines 76-377) *)

(** The fields of the window that the handlers read and write.  A text
    widget is the text it was given last, by [setPlainText] or by the user;
    what the handlers read from the input widget is [toPlainText] of it,
    defined below.  [stats_label] holds the three counts that line 227
    prints; [dialogs] is the sequence of [QMessageBox.warning] boxes shown
    so far, each with its title and message. *)
Record window := {
  history : list str;
  history_index : Z;
  input_text : str;
  output_text : str;
  detailed_stats : str;
  stats_label : Z * Z * Z;
  status_bar : string;
  dialogs : list (string * string)
}.

(** The check boxes, the combo box and the two line edits that
    [clean_whitespace] reads. *)
Record options := {
  remove_spaces : bool;
  remove_tabs : bool;
  remove_newlines : bool;
  trim_lines : bool;
  remove_invisible : bool;
  replace_tabs : bool;
  tab_spaces : Z;
  regex_input : str;
  regex_replace : str
}.

(** Lines 83-84 and the empty widgets of [__init__]. *)
Definition init_window : window :=
  {| history := []; history_index := -1;
     input_text := []; output_text := []; detailed_stats := [];
     stats_label := (0, 0, 0); status_bar := "Ready"; dialogs := [] |}.

(** A handler: it may raise, and the window keeps what was written before. *)
Definition M (A : Type) : Type := window -> result A * window.

Definition mret {A} (a : A) : M A := fun w => (inr a, w).
Definition mbind {A B} (m : M A) (k : A -> M B) : M B :=
  fun w =>
    match m w with
    | (inl e, w') => (inl e, w')
    | (inr a, w') => k a w'
    end.
Definition get : M window := fun w => (inr w, w).
Definition modify (f : window -> window) : M unit := fun w => (inr tt, f w).
Definition lift {A} (r : result A) : M A := fun w => (r, w).

Declare Scope handler_scope.
Delimit Scope handler_scope with handler.
Notation "x <- m ;; k" := (mbind m (fun x => k))
  (at level 61, m at next level, right associativity) : handler_scope.
Notation "m ;; k" := (mbind m (fun _ => k))
  (at level 61, right associativity) : handler_scope.

Definition set_history (h : list str) (w : window) : window :=
  {| history := h; history_index := history_index w;
     input_text := input_text w; output_text := output_text w;
     detailed_stats := detailed_stats w; stats_label := stats_label w;
     status_bar := status_bar w; dialogs := dialogs w |}.

Definition set_history_index (i : Z) (w : window) : window :=
  {| history := history w; history_index := i;
     input_text := input_text w; output_text := output_text w;
     detailed_stats := detailed_stats w; stats_label := stats_label w;
     status_bar := status_bar w; dialogs := dialogs w |}.

Definition set_input_text (s : str) (w : window) : window :=
  {| history := history w; history_index := history_index w;
     input_text := s; output_text := output_text w;
     detailed_stats := detailed_stats w; stats_label := stats_label w;
     status_bar := status_bar w; dialogs := dialogs w |}.

Definition set_output_text (s : str) (w : window) : window :=
  {| history := history w; history_index := history_index w;
     input_text := input_text w; output_text := s;
     detailed_stats := detailed_stats w; stats_label := stats_label w;
     status_bar := status_bar w; dialogs := dialogs w |}.

Definition set_detailed_stats (s : str) (w : window) : window :=
  {| history := history w; history_index := history_index w;
     input_text := input_text w; output_text := output_text w;
     detailed_stats := s; stats_label := stats_label w;
     status_bar := status_bar w; dialogs := dialogs w |}.

Definition set_stats_label (c : Z * Z * Z) (w : window) : window :=
  {| history := history w; history_index := history_index w;
     input_text := input_text w; output_text := output_text w;
     detailed_stats := detailed_stats w; stats_label := c;
     status_bar := status_bar w; dialogs := dialogs w |}.

(** [self.status_bar.showMessage(msg)]. *)
Definition showMessage (msg : string) : M unit :=
  modify (fun w =>
    {| history := history w; history_index := history_index w;
       input_text := input_text w; output_text := output_text w;
       detailed_stats := detailed_stats w; stats_label := stats_label w;
       status_bar := msg; dialogs := dialogs w |}).

(** [QMessageBox.warning(self, title, msg)]. *)
Definition warning (title msg : string) : M unit :=
  modify (fun w =>
    {| history := history w; history_index := history_index w;
       input_text := input_text w; output_text := output_text w;
       detailed_stats := detailed_stats w; stats_label := stats_label w;
       status_bar := status_bar w;
       dialogs := dialogs w ++ [(title, msg)] |}).

(** [QTextEdit.toPlainText()] on a widget that holds the text [s], as typed
    or as given to [setPlainText].  Qt, which the repository does not hold,
    keeps the text as a sequence of blocks: a carriage return, alone or
    before a newline, the paragraph separator and the two frame markers
    U+FDD0 and U+FDD1 end a block as a newline does, and on reading each
    block boundary and each line separator U+2028 comes out as a newline
    and each no-break space as a space.  [after_cr] says that the character
    before was a carriage return. *)
Fixpoint toPlainText_from (after_cr : bool) (s : str) : str :=
  match s with
  | [] => []
  | c :: s' =>
      if c =? 13 then 10 :: toPlainText_from true s'
      else if c =? 10
      then (if after_cr then [] else [10]) ++ toPlainText_from false s'
      else if (c =? 0x2028) || (c =? 0x2029) || (c =? 0xFDD0)
              || (c =? 0xFDD1)
      then 10 :: toPlainText_from false s'
      else if c =? 160 then 32 :: toPlainText_from false s'
      else c :: toPlainText_from false s'
  end.

Definition toPlainText (s : str) : str := toPlainText_from false s.

(** The marker glyphs of [detect_whitespace]. *)
Definition MIDDLE_DOT : codepoint := 0x00B7.
Definition RIGHT_ARROW : codepoint := 0x2192.
Definition PILCROW : codepoint := 0x00B6.
Definition REFERENCE_MARK : codepoint := 0x203B.
Definition DIAMOND : codepoint := 0x25C6.

Definition marker_glyphs : list codepoint :=
  [MIDDLE_DOT; RIGHT_ARROW; PILCROW; REFERENCE_MARK; DIAMOND].

Module Cleaner.

(** Lines 265-271. *)
Definition replace_invisible (char : codepoint) : str :=
  if char =? NNBSP then [REFERENCE_MARK]
  else if Py.mem char [ZWSP; ZWNBSP] then [DIAMOND]
  else [char].

(** Lines 259-273: the text that [detect_whitespace] displays. *)
Definition visible_text (text : str) : str :=
  let visible_text := Py.replace 32 [MIDDLE_DOT] text in
  let visible_text := Py.replace 9 [RIGHT_ARROW] visible_text in
  let visible_text := Py.replace 10 [PILCROW; 10] visible_text in
  Py.sub_class unicode_pattern replace_invisible visible_text.

(** Lines 252-276. *)
Definition detect_whitespace : M unit :=
  (w <- get ;;
   let text := toPlainText (input_text w) in
   match text with
   | [] => warning "Warning" "Input text is empty!"
   | _ =>
       modify (set_output_text (visible_text text)) ;;
       showMessage "Whitespace and watermarks detected"
   end)%handler.

(** [len(re.findall(c, text))] for a one-character pattern. *)
Definition count_char (c : codepoint) (text : str) : Z :=
  Py.len (filter (Z.eqb c) text).

(** Lines 221-228. *)
Definition update_stats : M unit :=
  (w <- get ;;
   let text := toPlainText (input_text w) in
   let spaces := count_char 32 text in
   let tabs := count_char 9 text in
   let newlines := count_char 10 text in
   modify (set_stats_label (spaces, tabs, newlines)) ;;
   showMessage "Statistics updated")%handler.

(** [self.input_text.setPlainText(s)]: the widget takes the text and its
    signal [textChanged] runs [update_stats], to which line 99 connects it.
    What is read from the widget afterwards is [toPlainText s]. *)
Definition input_setPlainText (s : str) : M unit :=
  (modify (set_input_text s) ;; update_stats)%handler.

(** Lines 317-320: the three statements under [# Save to history]. *)
Definition record_history (original_text : str) : M unit :=
  (w <- get ;;
   modify (set_history (Py.slice_to (history w) (history_index w + 1))) ;;
   w <- get ;;
   modify (set_history (history w ++ [original_text])) ;;
   w <- get ;;
   modify (set_history_index (history_index w + 1)))%handler.

(** Lines 351-358. *)
Definition undo : M unit :=
  (w <- get ;;
   if 0 <? history_index w then
     modify (set_history_index (history_index w - 1)) ;;
     w <- get ;;
     snapshot <- lift (Py.getitem (history w) (history_index w)) ;;
     input_setPlainText snapshot ;;
     detect_whitespace ;;
     update_stats ;;
     showMessage "Undo applied"
   else mret tt)%handler.

(** Lines 360-367. *)
Definition redo : M unit :=
  (w <- get ;;
   if history_index w <? Py.len (history w) - 1 then
     modify (set_history_index (history_index w + 1)) ;;
     w <- get ;;
     snapshot <- lift (Py.getitem (history w) (history_index w)) ;;
     input_setPlainText snapshot ;;
     detect_whitespace ;;
     update_stats ;;
     showMessage "Redo applied"
   else mret tt)%handler.

(** Lines 369-377. *)
Definition clear_text : M unit :=
  (input_setPlainText [] ;;
   modify (set_output_text []) ;;
   modify (set_detailed_stats []) ;;
   modify (set_history []) ;;
   modify (set_history_index (-1)) ;;
   update_stats ;;
   showMessage "Cleared")%handler.

Section Clean.

(** The regular-expression engine behind the custom pattern of line 312,
    which the repository does not hold: compiling a pattern gives a regex or
    raises, and substituting with a replacement template gives the new text
    or raises.  The exception is [re.error] for most bad patterns and
    templates, and another one for some (OverflowError for a repetition
    count that is too large, IndexError for an unknown group name in the
    template). *)
Variable Regex : Type.
Variable re_compile : str -> result Regex.
Variable regex_sub : Regex -> str -> str -> result str.

(** [re.sub(pattern, repl, text)]. *)
Definition re_sub (pattern repl text : str) : result str :=
  (r <- re_compile pattern ;; regex_sub r repl text)%result.

(** Lines 287-307: the built-in rules, in the order of the source. *)
Definition standard_cleaning (o : options) (text : str) : str :=
  let text :=
    if remove_spaces o then Py.sub_runs Py.isspace [32] false text
    else text in
  let text := if remove_tabs o then Py.replace 9 [] text else text in
  let text :=
    if replace_tabs o
    then let spaces := repeat 32 (Z.to_nat (tab_spaces o)) in
         Py.replace 9 spaces text
    else text in
  let text :=
    if remove_newlines o then Py.sub_runs (Z.eqb 10) [10] false text
    else text in
  let text :=
    if trim_lines o
    then let lines := Py.splitlines text in
         Py.join [10] (map Py.strip lines)
    else text in
  if remove_invisible o then Py.sub_class unicode_pattern (fun _ => [32]) text
  else text.

(** Lines 278-326. *)
Definition clean_whitespace (o : options) : M unit :=
  (w <- get ;;
   let text := toPlainText (input_text w) in
   match text with
   | [] => warning "Warning" "Input text is empty!"
   | _ =>
       let original_text := text in
       let text := standard_cleaning o text in
       let custom :=
         match regex_input o with
         | [] => ok text
         | _ => re_sub (regex_input o) (regex_replace o) text
         end in
       match custom with
       | inl ReError => warning "Error" "Invalid regex pattern!"
       | inl e => lift (raise e)
       | inr text =>
           record_history original_text ;;
           input_setPlainText text ;;
           detect_whitespace ;;
           update_stats ;;
           showMessage "Whitespace and watermarks cleaned"
       end
   end)%handler.

(** What can happen to the window between two looks at the history: a
    snapshot is recorded (the history step of a clean, on its own), a clean
    runs, the input is replaced by a new text (typed, pasted or loaded), or
    one of the buttons undo, redo and clear is pressed. *)
Inductive op :=
| Record (snapshot : str)
| Clean (o : options)
| Edit (text : str)
| Undo
| Redo
| Clear.

Definition run_op (x : op) : M unit :=
  match x with
  | Record snapshot => record_history snapshot
  | Clean o => clean_whitespace o
  | Edit text => input_setPlainText text
  | Undo => undo
  | Redo => redo
  | Clear => clear_text
  end.

(** A run of operations; it stops at the first exception. *)
Fixpoint run_ops (xs : list op) : M unit :=
  match xs with
  | [] => mret tt
  | x :: xs' => (run_op x ;; run_ops xs')%handler
  end.

End Clean.
End Cleaner.

(** A small engine to instantiate the section with, on the fragment of
    patterns without metacharacters and replacements without backslash: such
    a pattern matches itself and such a replacement stands for itself.  Of
    the patterns outside the fragment the file uses two, on which the engine
    does what Python does: ["("] raises [re.error] and ["a{4294967296}"]
    raises OverflowError, the repetition count being above the largest one
    that [re] accepts.  On the rest the engine raises [re.error], which
    Python does not do for all of them. *)
Definition metachars : list codepoint :=
  [40; 41; 91; 93; 123; 125; 42; 43; 63; 92; 124; 94; 36; 46].

Definition literal_compile (pattern : str) : result str :=
  if Py.str_eqb pattern (lit "a{4294967296}") then raise OverflowError
  else if existsb (fun c => Py.mem c metachars) pattern then raise ReError
  else ok pattern.

Fixpoint starts_with (p s : str) : option str :=
  match p, s with
  | [], _ => Some s
  | a :: p', b :: s' => if a =? b then starts_with p' s' else None
  | _ :: _, [] => None
  end.

Fixpoint literal_sub_from (fuel : nat) (p repl s : str) : str :=
  match fuel with
  | O => s
  | S fuel' =>
      match s with
      | [] => []
      | c :: s' =>
          match starts_with p s with
          | Some rest => repl ++ literal_sub_from fuel' p repl rest
          | None => c :: literal_sub_from fuel' p repl s'
          end
      end
  end.

Definition literal_sub (p repl s : str) : result str :=
  if Py.mem 92 repl then raise ReError
  else match p with
       | [] => ok (repl ++ flat_map (fun c => c :: repl) s)
       | _ => ok (literal_sub_from (S (List.length s)) p repl s)
       end.

(** A character that a text widget gives back as it got it. *)
Definition survives_widget (c : codepoint) : bool :=
  negb ((c =? 13) || (c =? 0x2028) || (c =? 0x2029) || (c =? 0xFDD0)
        || (c =? 0xFDD1) || (c =? 160)).

(** ** The invariant of the history *)

(** The cursor is a position of the history, or -1 when there is none. *)
Definition history_ok (w : window) : Prop :=
  -1 <= history_index w <= Py.len (history w) - 1.

(** The window after the body of [undo] or [redo] moved the cursor to [i]
    and put the snapshot [s] back: lines 355-358 and 364-367. *)
Definition restored (msg : string) (i : Z) (s : str) (w : window) : window :=
  snd ((modify (set_history_index i) ;;
        Cleaner.input_setPlainText s ;;
        Cleaner.detect_whitespace ;;
        Cleaner.update_stats ;;
        showMessage msg)%handler w).

(** The window after [record_history]: lines 318-320. *)
Definition recorded (s : str) (w : window) : window :=
  set_history_index (history_index w + 1)
    (set_history (Py.slice_to (history w) (history_index w + 1) ++ [s]) w).

(** The window after [clean_whitespace] put the cleaned text [t] in the
    input: lines 323-326. *)
Definition adopted (t : str) (w : window) : window :=
  snd ((Cleaner.input_setPlainText t ;;
        Cleaner.detect_whitespace ;;
        Cleaner.update_stats ;;
        showMessage "Whitespace and watermarks cleaned")%handler w).

(** ** Options with both tab rules *)

(** The two check boxes for tabs both ticked, the rest as given. *)
Definition both_tab_rules (rs rn tl ri : bool) (expand : bool) (n : Z)
    (pattern repl : str) : options :=
  {| remove_spaces := rs; remove_tabs := true; remove_newlines := rn;
     trim_lines := tl; remove_invisible := ri; replace_tabs := expand;
     tab_spaces := n; regex_input := pattern; regex_replace := repl |}.

(** ** The rendering of one character *)

(** What the four passes of [detect_whitespace] make of one character. *)
Definition render_char (c : codepoint) : str :=
  if c =? 32 then [MIDDLE_DOT]
  else if c =? 9 then [RIGHT_ARROW]
  else if c =? 10 then [PILCROW; 10]
  else if c =? NNBSP then [REFERENCE_MARK]
  else if (c =? ZWSP) || (c =? ZWNBSP) then [DIAMOND]
  else [c].

(** [word_counter[k]]: the count stored for the key [k], and 0 for a word
    that is no key. *)
Definition counter_get (k : str) (c : list (str * Z)) : Z :=
  match find (fun kv => Py.str_eqb (fst kv) k) c with
  | Some kv => snd kv
  | None => 0
  end.

Definition str_eq_dec : forall a b : str, {a = b} + {a <> b} :=
  list_eq_dec Z.eq_dec.

(** Decreasing order of the counts, as [most_common] lists its items. *)
Definition count_ge (a b : str * Z) : Prop := snd b <= snd a.

(** ** The built-in rules one by one *)

(** The six steps of lines 288-307, each as a function of the options and
    of the text it receives; [standard_cleaning] is their composition. *)
Definition collapse_rule (o : options) (text : str) : str :=
  if remove_spaces o then Py.sub_runs Py.isspace [32] false text else text.

Definition strip_tabs_rule (o : options) (text : str) : str :=
  if remove_tabs o then Py.replace 9 [] text else text.

Definition expand_tabs_rule (o : options) (text : str) : str :=
  if replace_tabs o
  then Py.replace 9 (repeat 32 (Z.to_nat (tab_spaces o))) text
  else text.

Definition newlines_rule (o : options) (text : str) : str :=
  if remove_newlines o then Py.sub_runs (Z.eqb 10) [10] false text else text.

Definition trim (text : str) : str :=
  Py.join [10] (map Py.strip (Py.splitlines text)).

Definition trim_rule (o : options) (text : str) : str :=
  if trim_lines o then trim text else text.

Definition invisible_rule (o : options) (text : str) : str :=
  if remove_invisible o
  then Py.sub_class unicode_pattern (fun _ => [32]) text
  else text.

(** Two plain spaces side by side somewhere in the text. *)
Fixpoint double_space (text : str) : bool :=
  match text with
  | a :: (b :: _) as text' => ((a =? 32) && (b =? 32)) || double_space text'
  | _ => false
  end.

(** Lines 310-312 without the handler around them: the custom substitution
    on the text that the built-in rules produced. *)
Definition custom_step (Regex : Type) (re_compile : str -> result Regex)
    (regex_sub : Regex -> str -> str -> result str) (o : options)
    (text : str) : result str :=
  match regex_input o with
  | [] => ok text
  | _ => Cleaner.re_sub Regex re_compile regex_sub
           (regex_input o) (regex_replace o) text
  end.

(** What [splitlines] has left to read after the line break [c]: the text
    that follows, without its first character when the two are ["\r\n"]. *)
Definition after_break (c : codepoint) (s : str) : str :=
  match s with
  | d :: s' => if (c =? 13) && (d =? 10) then s' else s
  | [] => s
  end.

(** ** set_preset_regex (lines 210-219) *)

(** The two line edits of the custom pattern, set together. *)
Definition set_regex (pattern repl : str) (o : options) : options :=
  {| remove_spaces := remove_spaces o; remove_tabs := remove_tabs o;
     remove_newlines := remove_newlines o; trim_lines := trim_lines o;
     remove_invisible := remove_invisible o; replace_tabs := replace_tabs o;
     tab_spaces := tab_spaces o;
     regex_input := pattern; regex_replace := repl |}.


(** The window that [clear_text] leaves: everything as at the start, but
    for the status bar and the boxes already shown. *)
Definition cleared (w : window) : window :=
  {| history := []; history_index := -1;
     input_text := []; output_text := []; detailed_stats := [];
     stats_label := (0, 0, 0); status_bar := "Cleared";
     dialogs := dialogs w |}.

(** ** UnicodeHighlighter (lines 14-42) *)

(** A [QTextCharFormat] as the highlighter sets it up: a foreground colour
    and, for one rule, a background colour. *)
Record char_format := {
  foreground : string;
  background : option string
}.

Definition space_format : char_format :=
  {| foreground := "blue"; background := None |}.
Definition tab_format : char_format :=
  {| foreground := "red"; background := None |}.
Definition newline_format : char_format :=
  {| foreground := "green"; background := None |}.
Definition invisible_format : char_format :=
  {| foreground := "purple"; background := Some "yellow"%string |}.

(** Lines 17-36.  Each pattern is one character or an alternation of two,
    kept here as the characters it matches. *)
Definition highlighting_rules : list (list codepoint * char_format) :=
  [([MIDDLE_DOT], space_format);
   ([RIGHT_ARROW], tab_format);
   ([PILCROW], newline_format);
   ([DIAMOND; REFERENCE_MARK], invisible_format)].

(** [pattern.finditer(text)] for such a pattern: the start and the end of
    each match, from position [i] on. *)
Fixpoint finditer_from (alts : list codepoint) (i : Z) (text : str)
    : list (Z * Z) :=
  match text with
  | [] => []
  | c :: text' =>
      if Py.mem c alts then (i, i + 1) :: finditer_from alts (i + 1) text'
      else finditer_from alts (i + 1) text'
  end.

(** The length of a text in UTF-16 units, as Qt counts positions in a
    block: a character above U+FFFF takes two. *)
Definition utf16_len (text : str) : nat :=
  List.length text + List.length (filter (fun c => 0xFFFF <? c) text).

(** [self.setFormat(start, count, format)] on the formats of the block, one
    per UTF-16 unit; [i] is the position of the first format of the list. *)
Fixpoint setFormat_from (i start count : Z) (format : char_format)
    (formats : list (option char_format)) : list (option char_format) :=
  match formats with
  | [] => []
  | f :: formats' =>
      (if (start <=? i) && (i <? start + count) then Some format else f)
      :: setFormat_from (i + 1) start count format formats'
  end.

Definition setFormat (start count : Z) (format : char_format)
    (formats : list (option char_format)) : list (option char_format) :=
  setFormat_from 0 start count format formats.

(** Lines 38-42, on a block that has no format yet.  The positions that
    [finditer] gives count characters, and [setFormat] takes them as
    positions in UTF-16 units. *)
Definition highlightBlock (text : str) : list (option char_format) :=
  fold_left
    (fun formats rule =>
       fold_left
         (fun formats m =>
            setFormat (fst m) (snd m - fst m) (snd rule) formats)
         (finditer_from (fst rule) 0 text) formats)
    highlighting_rules
    (repeat None (utf16_len text)).

(** The format that a character ends up with. *)
Definition glyph_format (c : codepoint) : option char_format :=
  if c =? MIDDLE_DOT then Some space_format
  else if c =? RIGHT_ARROW then Some tab_format
  else if c =? PILCROW then Some newline_format
  else if (c =? DIAMOND) || (c =? REFERENCE_MARK) then Some invisible_format
  else None.

(** One rule applied to every character at once. *)
Fixpoint rule_formats (alts : list codepoint) (format : char_format)
    (text : str) (formats : list (option char_format))
    : list (option char_format) :=
  match text, formats with
  | c :: text', f :: formats' =>
      (if Py.mem c alts then Some format else f)
      :: rule_formats alts format text' formats'
  | _, _ => formats
  end.

(** ** Options without a custom pattern *)

(** The six boxes as given, four spaces per tab, both line edits empty. *)
Definition rules (spaces tabs newlines trims invisible expand : bool)
    : options :=
  {| remove_spaces := spaces; remove_tabs := tabs;
     remove_newlines := newlines; trim_lines := trims;
     remove_invisible := invisible; replace_tabs := expand;
     tab_spaces := 4; regex_input := []; regex_replace := [] |}.


(** * Properties *)

(** ** The scan *)

Module ScanFacts.
Section Facts.

Variable isalnum : codepoint -> bool.
Variable lower : str -> str.

Local Abbreviation scan_invisible := Scan.scan_invisible.
Local Abbreviation words_of := (Scan.words_of isalnum lower).
Local Abbreviation run := (Scan.run isalnum lower).

(** The occurrence pass keeps exactly the characters of the pattern, in the
    order of the text. *)
Lemma scan_invisible_filter (text : str) :
  scan_invisible text = map Scan.describe (filter unicode_pattern text).
Proof.
  induction text as [|c text IH]; simpl; [reflexivity|].
  destruct (unicode_pattern c); simpl; now rewrite IH.
Qed.

Lemma scan_invisible_count (text : str) :
  Py.len (scan_invisible text) = Py.len (filter unicode_pattern text).
Proof.
  unfold Py.len. now rewrite scan_invisible_filter, length_map.
Qed.

(** Each entry starts with the character it reports. *)
Lemma describe_head (c : codepoint) : hd 0 (Scan.describe c) = c.
Proof. reflexivity. Qed.

(** There is a word token as soon as there is a word character. *)
Lemma findall_words_from_nil (cur s : str) :
  Scan.findall_words_from isalnum cur s = [] <->
  cur = [] /\ existsb (Scan.isword isalnum) s = false.
Proof.
  revert cur. induction s as [|c s IH]; intros cur; simpl.
  - destruct cur; split; easy.
  - destruct (Scan.isword isalnum c); simpl.
    + rewrite IH. split; [intros [H _]|intros [_ H]]; discriminate.
    + destruct cur; [rewrite IH; tauto|].
      split; [discriminate|intros [H _]; discriminate].
Qed.

Lemma words_of_nil (text : str) :
  words_of text = [] <->
  existsb (Scan.isword isalnum) (lower text) = false.
Proof.
  unfold Scan.words_of. rewrite findall_words_from_nil. tauto.
Qed.

Lemma counter_add_not_nil (w : str) (c : list (str * Z)) :
  Scan.counter_add w c <> [].
Proof.
  destruct c as [|[k n] c]; simpl; [discriminate|].
  destruct (Py.str_eqb k w); discriminate.
Qed.

Lemma fold_counter_not_nil (ws : list str) (c : list (str * Z)) :
  c <> [] -> fold_left (fun c w => Scan.counter_add w c) ws c <> [].
Proof.
  revert c. induction ws as [|w ws IH]; intros c Hc; simpl; [exact Hc|].
  apply IH, counter_add_not_nil.
Qed.

Lemma Counter_not_nil (ws : list str) : ws <> [] -> Scan.Counter ws <> [].
Proof.
  destruct ws as [|w ws]; [easy|]. intros _. unfold Scan.Counter. simpl.
  apply fold_counter_not_nil. discriminate.
Qed.

(** The attribute [log2] is not in [re]. *)
Lemma re_log2_missing :
  re_getattr "log2" = raise (AttributeError "re" "log2").
Proof. reflexivity. Qed.

(** The sum stops at its first element. *)
Lemma sum_gen_raises (acc : pynum) (n : Z) (counts : list Z) :
  counts <> [] ->
  Scan.sum_gen acc n counts = raise (AttributeError "re" "log2").
Proof.
  destruct counts as [|c counts]; [easy|]. intros _. reflexivity.
Qed.

Lemma entropy_of_raises (ws : list str) :
  ws <> [] ->
  Scan.entropy_of ws (Scan.Counter ws) = raise (AttributeError "re" "log2").
Proof.
  intros Hws. unfold Scan.entropy_of.
  rewrite sum_gen_raises.
  - now destruct ws.
  - intros Hmap. apply map_eq_nil in Hmap. now apply Counter_not_nil in Hmap.
Qed.

(** Without a word token the scan delivers its report: entropy 0, which is
    below 4.5, and no top word. *)
Lemma run_without_words (text : str) :
  words_of text = [] ->
  run text =
  ok {| invisible_chars := Py.len (filter unicode_pattern text);
        details := firstn 10 (map Scan.describe (filter unicode_pattern text));
        word_entropy := PyInt 0;
        ai_likelihood := "High";
        top_words := [] |}.
Proof.
  intros Hw. unfold Scan.run. rewrite Hw. simpl.
  now rewrite scan_invisible_count, scan_invisible_filter.
Qed.

(** A delivered report carries the count and the first ten entries of the
    occurrence pass, and the label that line 65 gives its entropy. *)
Lemma run_report (text : str) (r : stats) :
  run text = ok r ->
  invisible_chars r = Py.len (filter unicode_pattern text) /\
  details r = firstn 10 (map Scan.describe (filter unicode_pattern text)) /\
  ai_likelihood r
  = (if py_lt (word_entropy r) 4.5%float then "High" else "Low")%string.
Proof.
  unfold Scan.run.
  destruct (Scan.entropy_of _ _) as [e|x]; simpl; [discriminate|].
  intros H. injection H as <-. simpl.
  now rewrite scan_invisible_count, scan_invisible_filter.
Qed.

(** C3: for every text with at least one word token, as line 61 finds them,
    the scan raises AttributeError at [re.log2] in the heuristic pass and
    ends without a report. *)
Theorem run_raises_on_words (text : str) :
  words_of text <> [] ->
  run text = raise (AttributeError "re" "log2") /\
  forall r : stats, run text <> ok r.
Proof.
  intros Hw.
  assert (E : run text = raise (AttributeError "re" "log2")).
  { unfold Scan.run. now rewrite entropy_of_raises. }
  split; [exact E|]. intros r Hr. rewrite E in Hr. discriminate.
Qed.

End Facts.
End ScanFacts.

(** The text ["a"] has a word token, and the scan of it raises. *)
Lemma run_raises_on_words_witness :
  Scan.words_of ascii_isalnum ascii_lower (lit "a") <> [] /\
  Scan.run ascii_isalnum ascii_lower (lit "a")
  = raise (AttributeError "re" "log2").
Proof.
  split; [discriminate|].
  apply (ScanFacts.run_raises_on_words ascii_isalnum ascii_lower (lit "a")).
  discriminate.
Defined.

(** *** The scan on three ASCII texts *)

Module ScanCases.

Local Abbreviation run := (Scan.run ascii_isalnum ascii_lower).
Local Abbreviation words_of := (Scan.words_of ascii_isalnum ascii_lower).

(** C1 on the text ["a"] followed by U+200B: the occurrence pass finds the
    one character of the pattern, a count of 1, and the scan then raises at
    line 64, before lines 67-74 would report the count. *)
Theorem count_found_but_not_reported :
  let text := lit "a" ++ [ZWSP] in
  Py.len (filter unicode_pattern text) = 1 /\
  Scan.scan_invisible text = [[ZWSP] ++ lit " (U+200B: ZERO WIDTH SPACE)"] /\
  run text = raise (AttributeError "re" "log2").
Proof. repeat split. Qed.

(** C2 on the text ["Hello hello world"]: the tokens are hello, hello and
    world, with counts 2 and 1 out of 3, and the scan raises at [re.log2]
    instead of giving their entropy and a label. *)
Theorem entropy_not_computed :
  let text := lit "Hello hello world" in
  words_of text = [lit "hello"; lit "hello"; lit "world"] /\
  Scan.Counter (words_of text) = [(lit "hello", 2); (lit "world", 1)] /\
  run text = raise (AttributeError "re" "log2").
Proof. repeat split. Qed.

(** C10 on the text ["a"]: one token, one distinct word, and the scan
    raises, so there is no entropy to lie between 0 and log2 1. *)
Theorem entropy_bounds_no_value :
  let text := lit "a" in
  words_of text = [lit "a"] /\
  Scan.Counter (words_of text) = [(lit "a", 1)] /\
  run text = raise (AttributeError "re" "log2") /\
  forall r : stats, run text <> ok r.
Proof. repeat split. discriminate. Qed.

End ScanCases.

(** *** The formula of the specification on one word *)

Module EntropySpecFacts.

Lemma epsilon_pos : (0 < EntropySpec.epsilon)%R.
Proof. unfold EntropySpec.epsilon. apply Rinv_0_lt_compat, pow_lt. lra. Qed.

Lemma ln_2_pos : (0 < ln 2)%R.
Proof. rewrite <- ln_1. apply ln_increasing; lra. Qed.

(** Where the scan raises, the formula has a value; and for a text of one
    distinct word that value is [- log2 (1 + 1e-10)], just below 0. *)
Lemma entropy_single_word_negative (count : Z) :
  0 < count -> (EntropySpec.entropy [count] < 0)%R.
Proof.
  intros Hc.
  assert (Hr : (0 < IZR count)%R) by now apply IZR_lt.
  unfold EntropySpec.entropy, EntropySpec.term, EntropySpec.log2. simpl.
  rewrite Z.add_0_r.
  replace (IZR count / IZR count)%R with 1%R by (field; lra).
  assert (H : (0 < ln (1 + EntropySpec.epsilon))%R).
  { rewrite <- ln_1 at 1. apply ln_increasing; [lra|].
    pose proof epsilon_pos. lra. }
  pose proof ln_2_pos as H2.
  assert (H3 : (0 < ln (1 + EntropySpec.epsilon) / ln 2)%R)
    by now apply Rdiv_lt_0_compat.
  lra.
Qed.

End EntropySpecFacts.

(** ** The visible rendering *)

Module RenderFacts.

Local Abbreviation visible_text := Cleaner.visible_text.

Lemma replace_app (old : codepoint) (new a b : str) :
  Py.replace old new (a ++ b) = Py.replace old new a ++ Py.replace old new b.
Proof. apply flat_map_app. Qed.

Lemma sub_class_app (cls : codepoint -> bool) (f : codepoint -> str)
    (a b : str) :
  Py.sub_class cls f (a ++ b) = Py.sub_class cls f a ++ Py.sub_class cls f b.
Proof. apply flat_map_app. Qed.

(** The four passes of [detect_whitespace] work character by character. *)
Lemma visible_text_app (a b : str) :
  visible_text (a ++ b) = visible_text a ++ visible_text b.
Proof.
  unfold Cleaner.visible_text.
  now rewrite !replace_app, sub_class_app.
Qed.

Lemma visible_text_at (c : codepoint) (pre post : str) :
  visible_text (pre ++ [c] ++ post)
  = visible_text pre ++ visible_text [c] ++ visible_text post.
Proof. now rewrite !visible_text_app. Qed.

Lemma visible_text_flat_map (text : str) :
  visible_text text = flat_map (fun c => visible_text [c]) text.
Proof.
  induction text as [|c text IH]; [reflexivity|].
  change (c :: text) with ([c] ++ text).
  rewrite visible_text_app, IH. reflexivity.
Qed.

Lemma mem_marker_cases (c : codepoint) :
  Py.mem c marker_glyphs = true ->
  c = MIDDLE_DOT \/ c = RIGHT_ARROW \/ c = PILCROW \/ c = REFERENCE_MARK
  \/ c = DIAMOND.
Proof.
  unfold Py.mem, marker_glyphs. simpl.
  rewrite !orb_true_iff, !Z.eqb_eq. intuition discriminate.
Qed.

Lemma visible_text_marker (c : codepoint) :
  Py.mem c marker_glyphs = true -> visible_text [c] = [c].
Proof.
  intros H. apply mem_marker_cases in H.
  destruct H as [->|[->|[->|[->| ->]]]]; reflexivity.
Qed.



(** C9: no marker glyph is a character that [detect_whitespace] replaces, so
    each of them, wherever it stands, comes out of the rendering as it went
    in; and rendering a rendered text leaves every marker glyph in it
    unchanged while it treats the other characters as usual. *)
Theorem markers_pass_through :
  Forall (fun g =>
            g <> 32 /\ g <> 9 /\ g <> 10 /\ unicode_pattern g = false /\
            forall pre post : str,
              visible_text (pre ++ [g] ++ post)
              = visible_text pre ++ [g] ++ visible_text post)
         marker_glyphs /\
  forall text : str,
    visible_text (visible_text text)
    = flat_map (fun c => if Py.mem c marker_glyphs then [c]
                         else visible_text [c])
               (visible_text text).
Proof.
  split.
  - repeat constructor; try discriminate; intros pre post;
      apply visible_text_at.
  - intros text. rewrite (visible_text_flat_map (visible_text text)).
    apply flat_map_ext. intros c.
    destruct (Py.mem c marker_glyphs) eqn:E; [|reflexivity].
    now apply visible_text_marker.
Qed.

End RenderFacts.

(** ** Reading a text widget *)

Module QtFacts.

Lemma toPlainText_from_in (b : bool) (s : str) (x : codepoint) :
  In x (toPlainText_from b s) -> In x s \/ x = 10 \/ x = 32.
Proof.
  revert b. induction s as [|c s IH]; intros b; [easy|].
  cbn [toPlainText_from].
  destruct (c =? 13).
  { intros [<-|H]; [tauto|]. destruct (IH _ H); [left; now right|tauto]. }
  destruct (Z.eqb_spec c 10) as [->|_].
  { rewrite in_app_iff. intros [H|H].
    - left. left. destruct b; [easy|]. now destruct H.
    - destruct (IH _ H); [left; now right|tauto]. }
  destruct ((c =? 0x2028) || (c =? 0x2029) || (c =? 0xFDD0) || (c =? 0xFDD1)).
  { intros [<-|H]; [tauto|]. destruct (IH _ H); [left; now right|tauto]. }
  destruct (c =? 160).
  { intros [<-|H]; [tauto|]. destruct (IH _ H); [left; now right|tauto]. }
  intros [<-|H]; [left; now left|].
  destruct (IH _ H); [left; now right|tauto].
Qed.

(** What is read back is empty only when the widget is. *)
Lemma toPlainText_nil (s : str) : toPlainText s = [] <-> s = [].
Proof.
  split; [|now intros ->].
  destruct s as [|c s]; [easy|]. unfold toPlainText.
  cbn [toPlainText_from].
  repeat match goal with
         | |- context [if ?b then _ else _] => destruct b
         end; discriminate.
Qed.

(** A text without a carriage return, a separator, a frame marker or a
    no-break space is read back as it is. *)
Lemma toPlainText_plain (s : str) :
  forallb survives_widget s = true -> toPlainText s = s.
Proof.
  unfold toPlainText. induction s as [|c s IH]; [reflexivity|].
  cbn [forallb toPlainText_from]. rewrite andb_true_iff. intros [Hc Hs].
  unfold survives_widget in Hc. apply negb_true_iff in Hc.
  rewrite !orb_false_iff in Hc.
  destruct Hc as [[[[[H1 H2] H3] H4] H5] H6].
  rewrite H1, H2, H3, H4, H5, H6. cbn [orb].
  destruct (Z.eqb_spec c 10) as [->|_]; cbn [app]; now rewrite IH.
Qed.

(** What is read back is such a text: reading it again through a widget
    changes nothing. *)
Lemma toPlainText_from_survives (b : bool) (s : str) :
  forallb survives_widget (toPlainText_from b s) = true.
Proof.
  revert b. induction s as [|c s IH]; intros b; [reflexivity|].
  cbn [toPlainText_from].
  assert (Hcons : forall x b', survives_widget x = true ->
            forallb survives_widget (x :: toPlainText_from b' s) = true).
  { intros x b' Hx. cbn [forallb]. now rewrite Hx, IH. }
  destruct (Z.eqb_spec c 13) as [->|H13]; [now apply Hcons|].
  destruct (Z.eqb_spec c 10) as [->|H10].
  { rewrite forallb_app, IH. now destruct b. }
  destruct (Z.eqb_spec c 0x2028) as [->|H1]; [now apply Hcons|].
  destruct (Z.eqb_spec c 0x2029) as [->|H2]; [now apply Hcons|].
  destruct (Z.eqb_spec c 0xFDD0) as [->|H3]; [now apply Hcons|].
  destruct (Z.eqb_spec c 0xFDD1) as [->|H4]; [now apply Hcons|].
  cbn [orb].
  destruct (Z.eqb_spec c 160) as [->|H5]; [now apply Hcons|].
  apply Hcons. unfold survives_widget. apply negb_true_iff.
  rewrite !orb_false_iff. repeat split; now apply Z.eqb_neq.
Qed.

(** Reading back brings in no character of a class that holds neither the
    newline nor the space. *)
Lemma toPlainText_filter_nil (p : codepoint -> bool) (s : str) :
  p 10 = false -> p 32 = false ->
  filter p s = [] -> filter p (toPlainText s) = [].
Proof.
  intros H10 H32 Hs.
  destruct (filter p (toPlainText s)) as [|x l] eqn:E; [reflexivity|].
  assert (Hx : In x (filter p (toPlainText s))) by (rewrite E; now left).
  apply filter_In in Hx. destruct Hx as [Hin Hp].
  unfold toPlainText in Hin. apply toPlainText_from_in in Hin.
  destruct Hin as [Hin|[Hx|Hx]]; subst; try congruence.
  assert (H : In x (filter p s)) by (apply filter_In; now split).
  rewrite Hs in H. destruct H.
Qed.

Lemma toPlainText_no_tab (s : str) : ~ In 9 s -> ~ In 9 (toPlainText s).
Proof.
  intros Hs H. unfold toPlainText in H. apply toPlainText_from_in in H.
  destruct H as [H|[H|H]]; [tauto|discriminate|discriminate].
Qed.

Lemma toPlainText_idem (s : str) :
  toPlainText (toPlainText s) = toPlainText s.
Proof. apply toPlainText_plain, toPlainText_from_survives. Qed.

End QtFacts.

(** ** The cleaning pipeline *)

Module CleanFacts.

(** Once the tabs are deleted, replacing tabs changes nothing. *)
Lemma replace_after_delete (c : codepoint) (new text : str) :
  Py.replace c new (Py.replace c [] text) = Py.replace c [] text.
Proof.
  unfold Py.replace.
  induction text as [|x text IH]; simpl; [reflexivity|].
  destruct (x =? c) eqn:E; simpl; [exact IH|].
  now rewrite E, IH.
Qed.

(** Deleting the tabs keeps the other characters, in their order. *)
Lemma delete_is_filter (c : codepoint) (text : str) :
  Py.replace c [] text = filter (fun x => negb (x =? c)) text.
Proof.
  unfold Py.replace. induction text as [|x text IH]; [reflexivity|].
  cbn [flat_map filter]. rewrite IH. now destruct (x =? c).
Qed.

Section Engine.

Variable Regex : Type.
Variable re_compile : str -> result Regex.
Variable regex_sub : Regex -> str -> str -> result str.

Local Abbreviation clean_whitespace :=
  (Cleaner.clean_whitespace Regex re_compile regex_sub).

(** When compiling the custom pattern raises [re.error],
    [clean_whitespace] returns after one warning box and nothing else: the
    input text, the output text, the history and its cursor are what they
    were.  The box is the one of line 314, or the one of line 282 when the
    input is empty. *)
Lemma clean_invalid_pattern (o : options) (w : window) :
  regex_input o <> [] ->
  re_compile (regex_input o) = raise ReError ->
  let w' := snd (clean_whitespace o w) in
  fst (clean_whitespace o w) = inr tt /\
  input_text w' = input_text w /\
  output_text w' = output_text w /\
  history w' = history w /\
  history_index w' = history_index w /\
  stats_label w' = stats_label w /\
  status_bar w' = status_bar w /\
  dialogs w'
  = dialogs w ++ [match input_text w with
                  | [] => ("Warning", "Input text is empty!")
                  | _ => ("Error", "Invalid regex pattern!")
                  end]%string.
Proof.
  intros Hpat Hcomp.
  unfold Cleaner.clean_whitespace, Cleaner.re_sub, mbind, get.
  cbv beta iota zeta.
  destruct (toPlainText (input_text w)) as [|c text] eqn:Etext.
  - apply (proj1 (QtFacts.toPlainText_nil _)) in Etext. rewrite Etext.
    simpl. rewrite Etext. repeat split; reflexivity.
  - assert (Hne : input_text w <> []).
    { intros H. rewrite H in Etext. discriminate. }
    destruct (regex_input o) as [|p pat] eqn:Epat; [easy|].
    rewrite Hcomp. simpl.
    destruct (input_text w); [easy|]. repeat split; reflexivity.
Qed.

(** When compiling the pattern raises anything else, the handler raises it:
    no box is shown, and the window is left as it was. *)
Lemma clean_other_exception (o : options) (w : window) (e : exn) :
  input_text w <> [] ->
  regex_input o <> [] ->
  re_compile (regex_input o) = raise e ->
  e <> ReError ->
  clean_whitespace o w = (inl e, w).
Proof.
  intros Hne Hpat Hcomp He.
  unfold Cleaner.clean_whitespace, Cleaner.re_sub, mbind, get.
  cbv beta iota zeta.
  destruct (toPlainText (input_text w)) as [|c text] eqn:Etext.
  - apply (proj1 (QtFacts.toPlainText_nil _)) in Etext. contradiction.
  - destruct (regex_input o) as [|p pat] eqn:Epat; [easy|].
    rewrite Hcomp. simpl. now destruct e.
Qed.

(** C6: the tabs are deleted before they would be replaced.  With both
    boxes ticked the built-in rules give what they give with the second box
    unticked; with both ticked and no other box, the result is the text
    without its tabs, the other characters kept in their order, for every
    text and every number of spaces, where the second box alone would give
    the text with each tab replaced by the spaces; and cleaning ["a\t\tb"]
    with both ticked and four spaces per tab leaves ["ab"] in the input. *)
Theorem strip_tabs_before_expand (rs rn tl ri : bool) (n : Z)
    (pattern repl text : str) (w : window) :
  Cleaner.standard_cleaning (both_tab_rules rs rn tl ri true n pattern repl)
    text
  = Cleaner.standard_cleaning
      (both_tab_rules rs rn tl ri false n pattern repl) text /\
  Cleaner.standard_cleaning
    (both_tab_rules false false false false true n pattern repl) text
  = Py.replace 9 [] text /\
  Py.replace 9 [] text = filter (fun c => negb (c =? 9)) text /\
  Cleaner.standard_cleaning
    {| remove_spaces := false; remove_tabs := false;
       remove_newlines := false; trim_lines := false;
       remove_invisible := false; replace_tabs := true; tab_spaces := n;
       regex_input := pattern; regex_replace := repl |} text
  = Py.replace 9 (repeat 32 (Z.to_nat n)) text /\
  Cleaner.standard_cleaning
    (both_tab_rules false false false false true 4 [] [])
    [97; 9; 9; 98] = [97; 98] /\
  input_text
    (snd (clean_whitespace
            (both_tab_rules false false false false true 4 [] [])
            (set_input_text [97; 9; 9; 98] w)))
  = [97; 98].
Proof.
  split; [|split; [|split; [|split; [|split]]]]; try reflexivity.
  - unfold Cleaner.standard_cleaning, both_tab_rules. simpl.
    now rewrite replace_after_delete.
  - unfold Cleaner.standard_cleaning, both_tab_rules. simpl.
    apply replace_after_delete.
  - apply delete_is_filter.
Qed.

End Engine.
End CleanFacts.

(** Cleaning ["a  b"] with the pattern ["("], on which compiling raises
    [re.error], leaves the text and a history of one entry as they were. *)
Lemma clean_invalid_pattern_witness :
  let o := {| remove_spaces := true; remove_tabs := false;
              remove_newlines := false; trim_lines := false;
              remove_invisible := true; replace_tabs := false;
              tab_spaces := 4; regex_input := lit "(";
              regex_replace := lit "x" |} in
  let w := set_history_index 0
             (set_history [lit "first"] (set_input_text (lit "a  b") init_window)) in
  input_text (snd (Cleaner.clean_whitespace str literal_compile literal_sub
                     o w)) = lit "a  b" /\
  history (snd (Cleaner.clean_whitespace str literal_compile literal_sub
                  o w)) = [lit "first"].
Proof.
  intros o w.
  assert (Hpat : regex_input o <> []) by discriminate.
  assert (Hcomp : literal_compile (regex_input o) = raise ReError)
    by reflexivity.
  pose proof (CleanFacts.clean_invalid_pattern str literal_compile
                literal_sub o w Hpat Hcomp) as H.
  simpl in H. destruct H as (_ & Hin & _ & Hh & _).
  split; [exact Hin|exact Hh].
Defined.

(** C5 on the pattern ["a{4294967296}"], with the input ["aaa"] and the
    replacement ["b"]: the pattern does not compile, the exception is
    OverflowError and not [re.error], line 313 does not catch it, and the
    handler raises it without showing a box; the window, its input and its
    history are as they were. *)
Theorem clean_overflow_pattern :
  let o := set_regex (lit "a{4294967296}") (lit "b")
             (rules false false false false false false) in
  let w := set_input_text (lit "aaa") init_window in
  literal_compile (regex_input o) = raise OverflowError /\
  Cleaner.clean_whitespace str literal_compile literal_sub o w
  = (inl OverflowError, w) /\
  dialogs (snd (Cleaner.clean_whitespace str literal_compile literal_sub
                  o w)) = [].
Proof. repeat split. Qed.

(** ** The history *)

Module HistoryFacts.

Lemma mbind_ok {A B} (m : M A) (k : A -> M B) (w w' : window) (a : A) :
  m w = (inr a, w') -> mbind m k w = k a w'.
Proof. intros H. unfold mbind. now rewrite H. Qed.

Lemma len_app {A} (l1 l2 : list A) : Py.len (l1 ++ l2) = Py.len l1 + Py.len l2.
Proof. unfold Py.len. rewrite length_app. lia. Qed.

Lemma len_nonneg {A} (l : list A) : 0 <= Py.len l.
Proof. unfold Py.len. lia. Qed.

(** [l[:k]] for a [k] between 0 and the length has length [k]. *)
Lemma len_slice_to {A} (l : list A) (k : Z) :
  0 <= k <= Py.len l -> Py.len (Py.slice_to l k) = k.
Proof.
  intros Hk. unfold Py.slice_to.
  destruct (k <? 0) eqn:E; [lia|].
  unfold Py.len in *. rewrite length_firstn. lia.
Qed.

(** [l[i]] inside the list does not raise. *)
Lemma getitem_in_range {A} (l : list A) (i : Z) :
  0 <= i < Py.len l -> exists x, Py.getitem l i = ok x.
Proof.
  intros Hi. unfold Py.getitem.
  destruct (i <? 0) eqn:E; [lia|].
  replace ((0 <=? i) && (i <? Py.len l)) with true by lia.
  destruct (nth_error l (Z.to_nat i)) as [x|] eqn:En; [now exists x|].
  apply nth_error_None in En. unfold Py.len in Hi. lia.
Qed.

Lemma getitem_last {A} (l : list A) (x : A) :
  Py.getitem (l ++ [x]) (Py.len l) = ok x.
Proof.
  unfold Py.getitem. pose proof (len_nonneg l) as Hl.
  destruct (Py.len l <? 0) eqn:E; [lia|].
  rewrite len_app. change (Py.len [x]) with 1.
  replace ((0 <=? Py.len l) && (Py.len l <? Py.len l + 1)) with true by lia.
  unfold Py.len. rewrite Nat2Z.id, nth_error_app2, Nat.sub_diag by lia.
  reflexivity.
Qed.


Lemma record_history_eq (s : str) (w : window) :
  Cleaner.record_history s w = (inr tt, recorded s w).
Proof. reflexivity. Qed.

(** After a record the cursor is on the new entry, which is the last. *)
Lemma recorded_tail (s : str) (w : window) :
  history_ok w ->
  history_index (recorded s w) = Py.len (history (recorded s w)) - 1 /\
  history_index (recorded s w) = history_index w + 1 /\
  Py.getitem (history (recorded s w)) (history_index (recorded s w)) = ok s.
Proof.
  intros [Hlo Hhi]. unfold recorded. simpl.
  assert (Hlen : Py.len (Py.slice_to (history w) (history_index w + 1))
                 = history_index w + 1) by (apply len_slice_to; lia).
  rewrite len_app. change (Py.len [s]) with 1.
  repeat split; [lia|].
  rewrite <- Hlen at 2. apply getitem_last.
Qed.

Lemma recorded_ok (s : str) (w : window) :
  history_ok w -> history_ok (recorded s w).
Proof.
  intros H. destruct (recorded_tail s w H) as (H1 & H2 & _).
  unfold history_ok in *. lia.
Qed.

(** What [restored] leaves in the fields of the history and in the input. *)
Lemma restored_fields (msg : string) (i : Z) (s : str) (w : window) :
  history (restored msg i s w) = history w /\
  history_index (restored msg i s w) = i /\
  input_text (restored msg i s w) = s.
Proof.
  unfold restored, Cleaner.input_setPlainText, Cleaner.detect_whitespace,
    Cleaner.update_stats, mbind, get, modify, showMessage, warning.
  simpl. destruct (toPlainText s); simpl; repeat split; reflexivity.
Qed.

Lemma restored_ok (msg : string) (i : Z) (s : str) (w : window) :
  -1 <= i <= Py.len (history w) - 1 -> history_ok (restored msg i s w).
Proof.
  intros H. unfold history_ok.
  destruct (restored_fields msg i s w) as (-> & -> & _). exact H.
Qed.

Lemma undo_step (w : window) (s : str) :
  0 < history_index w ->
  Py.getitem (history w) (history_index w - 1) = ok s ->
  Cleaner.undo w
  = (inr tt, restored "Undo applied" (history_index w - 1) s w).
Proof.
  intros Hlt Hget.
  unfold Cleaner.undo, restored, Cleaner.input_setPlainText,
    Cleaner.detect_whitespace, Cleaner.update_stats, showMessage, warning,
    mbind, get, lift, modify. simpl.
  replace (0 <? history_index w) with true by lia.
  simpl. rewrite Hget. simpl. destruct (toPlainText s); reflexivity.
Qed.

Lemma redo_step (w : window) (s : str) :
  history_index w < Py.len (history w) - 1 ->
  Py.getitem (history w) (history_index w + 1) = ok s ->
  Cleaner.redo w
  = (inr tt, restored "Redo applied" (history_index w + 1) s w).
Proof.
  intros Hlt Hget.
  unfold Cleaner.redo, restored, Cleaner.input_setPlainText,
    Cleaner.detect_whitespace, Cleaner.update_stats, showMessage, warning,
    mbind, get, lift, modify. simpl.
  replace (history_index w <? Py.len (history w) - 1) with true by lia.
  simpl. rewrite Hget. simpl. destruct (toPlainText s); reflexivity.
Qed.

(** On exhausted history the two handlers do nothing at all. *)
Lemma undo_noop (w : window) :
  history_index w <= 0 -> Cleaner.undo w = (inr tt, w).
Proof.
  intros H. unfold Cleaner.undo, mbind, get. simpl.
  now replace (0 <? history_index w) with false by lia.
Qed.

Lemma redo_noop (w : window) :
  Py.len (history w) - 1 <= history_index w -> Cleaner.redo w = (inr tt, w).
Proof.
  intros H. unfold Cleaner.redo, mbind, get. simpl.
  now replace (history_index w <? Py.len (history w) - 1) with false by lia.
Qed.

(** With the cursor inside the history neither handler raises, and the
    cursor stays inside. *)
Lemma undo_ok (w : window) :
  history_ok w ->
  fst (Cleaner.undo w) = inr tt /\ history_ok (snd (Cleaner.undo w)).
Proof.
  intros Hok. pose proof Hok as [Hlo Hhi].
  destruct (Z_lt_le_dec 0 (history_index w)) as [Hlt|Hle].
  - destruct (getitem_in_range (history w) (history_index w - 1))
      as [s Hs]; [lia|].
    rewrite (undo_step w s Hlt Hs). simpl. split; [reflexivity|].
    apply restored_ok. lia.
  - rewrite (undo_noop w Hle). now split.
Qed.

Lemma redo_ok (w : window) :
  history_ok w ->
  fst (Cleaner.redo w) = inr tt /\ history_ok (snd (Cleaner.redo w)).
Proof.
  intros Hok. pose proof Hok as [Hlo Hhi].
  destruct (Z_lt_le_dec (history_index w) (Py.len (history w) - 1))
    as [Hlt|Hle].
  - destruct (getitem_in_range (history w) (history_index w + 1))
      as [s Hs]; [lia|].
    rewrite (redo_step w s Hlt Hs). simpl. split; [reflexivity|].
    apply restored_ok. lia.
  - rewrite (redo_noop w Hle). now split.
Qed.



Section Engine.

Variable Regex : Type.
Variable re_compile : str -> result Regex.
Variable regex_sub : Regex -> str -> str -> result str.

Local Abbreviation clean_whitespace :=
  (Cleaner.clean_whitespace Regex re_compile regex_sub).
Local Abbreviation run_op := (Cleaner.run_op Regex re_compile regex_sub).
Local Abbreviation run_ops := (Cleaner.run_ops Regex re_compile regex_sub).

Lemma adopt_eq (t : str) (w : window) :
  (Cleaner.input_setPlainText t ;;
   Cleaner.detect_whitespace ;;
   Cleaner.update_stats ;;
   showMessage "Whitespace and watermarks cleaned")%handler w
  = (inr tt, adopted t w).
Proof.
  unfold adopted, Cleaner.input_setPlainText, Cleaner.detect_whitespace,
    Cleaner.update_stats, mbind, get, modify, showMessage, warning.
  simpl. destruct (toPlainText t); reflexivity.
Qed.

Lemma record_then_adopt (s t : str) (w : window) :
  (Cleaner.record_history s ;;
   Cleaner.input_setPlainText t ;;
   Cleaner.detect_whitespace ;;
   Cleaner.update_stats ;;
   showMessage "Whitespace and watermarks cleaned")%handler w
  = (inr tt, adopted t (recorded s w)).
Proof.
  rewrite (mbind_ok _ _ w (recorded s w) tt (record_history_eq s w)).
  apply adopt_eq.
Qed.

(** A clean ends in a warning box, or it raises what the custom
    substitution raised and leaves the window as it was, or it records the
    text it read and adopts the cleaned text. *)
Lemma clean_outcome (o : options) (w : window) :
  (exists title msg, clean_whitespace o w = warning title msg w) \/
  (exists e, clean_whitespace o w = (inl e, w)) \/
  (exists t, clean_whitespace o w
             = (inr tt, adopted t (recorded (toPlainText (input_text w)) w))).
Proof.
  remember (clean_whitespace o w) as res eqn:Eres.
  unfold Cleaner.clean_whitespace, mbind at 1, get in Eres.
  cbv beta iota zeta in Eres.
  destruct (toPlainText (input_text w)) as [|c text] eqn:Etext;
    [left; subst res; do 2 eexists; reflexivity|].
  match type of Eres with
  | _ = match ?c with _ => _ end _ => destruct c as [e|t]
  end.
  - destruct e; subst res;
      try (right; left; eexists; reflexivity).
    left. do 2 eexists. reflexivity.
  - right. right. subst res. eexists. apply record_then_adopt.
Qed.

Lemma adopted_fields (t : str) (w : window) :
  history (adopted t w) = history w /\
  history_index (adopted t w) = history_index w.
Proof.
  unfold adopted, Cleaner.input_setPlainText, Cleaner.detect_whitespace,
    Cleaner.update_stats, mbind, get, modify, showMessage, warning.
  simpl. destruct (toPlainText t); simpl; split; reflexivity.
Qed.

Lemma clean_ok (o : options) (w : window) :
  history_ok w -> history_ok (snd (clean_whitespace o w)).
Proof.
  intros Hok.
  destruct (clean_outcome o w) as [(title & msg & ->)|[(e & ->)|(t & ->)]].
  - exact Hok.
  - exact Hok.
  - simpl. unfold history_ok.
    destruct (adopted_fields t (recorded (toPlainText (input_text w)) w))
      as (-> & ->).
    now apply recorded_ok.
Qed.

(** Every operation keeps the cursor inside the history, and none but a
    clean can raise. *)
Lemma run_op_ok (x : Cleaner.op) (w : window) :
  history_ok w ->
  history_ok (snd (run_op x w)) /\
  (fst (run_op x w) = inr tt \/ exists o, x = Cleaner.Clean o).
Proof.
  intros Hok. destruct x as [s|o|t| | |]; unfold Cleaner.run_op.
  - rewrite record_history_eq. split; [now apply recorded_ok|now left].
  - split; [now apply clean_ok|right; now exists o].
  - split; [exact Hok|now left].
  - destruct (undo_ok w Hok). split; [assumption|now left].
  - destruct (redo_ok w Hok). split; [assumption|now left].
  - split; [unfold history_ok; simpl; lia|now left].
Qed.

Lemma run_ops_ok (xs : list Cleaner.op) (w : window) :
  history_ok w ->
  history_ok (snd (run_ops xs w)) /\
  (fst (run_ops xs w) = inr tt \/ exists o, In (Cleaner.Clean o) xs).
Proof.
  revert w. induction xs as [|x xs IH]; intros w Hok;
    cbn [Cleaner.run_ops].
  - split; [exact Hok|now left].
  - destruct (run_op_ok x w Hok) as (Hok' & Hr).
    unfold mbind. destruct (run_op x w) as [[e|[]] w'] eqn:E.
    + cbn [fst snd] in *. split; [exact Hok'|]. right.
      destruct Hr as [Hr|[o ->]]; [discriminate|].
      exists o. now left.
    + cbn [fst snd] in *. destruct (IH w' Hok') as (H1 & H2).
      split; [exact H1|]. destruct H2 as [H2|[o Ho]]; [now left|].
      right. exists o. now right.
Qed.

(** The window in the middle of a run that has not raised is the window
    after its first part. *)
Lemma run_ops_app (xs ys : list Cleaner.op) (w : window) :
  fst (run_ops xs w) = inr tt ->
  run_ops (xs ++ ys) w = run_ops ys (snd (run_ops xs w)).
Proof.
  revert w. induction xs as [|x xs IH]; intros w Hr;
    cbn [Cleaner.run_ops app] in *; [reflexivity|].
  unfold mbind in *. destruct (run_op x w) as [[e|[]] w'] eqn:E.
  - discriminate.
  - now apply IH.
Qed.

Lemma init_window_ok : history_ok init_window.
Proof. unfold history_ok. simpl. lia. Qed.

(** C8: after any run of record, clean, edit, undo, redo and clear from the
    initial window the cursor is between -1 and the last position of the
    history; there undo and redo do not raise, and when there is nothing to
    undo or to redo they leave the window exactly as it is and return None.
    No exception was raised in the run, unless it holds a clean, whose
    custom substitution may raise: a run of record, edit, undo, redo and
    clear never raises. *)
Theorem history_cursor_in_range (xs : list Cleaner.op) :
  let w := snd (run_ops xs init_window) in
  (fst (run_ops xs init_window) = inr tt \/
   exists o, In (Cleaner.Clean o) xs) /\
  -1 <= history_index w <= Py.len (history w) - 1 /\
  fst (Cleaner.undo w) = inr tt /\
  fst (Cleaner.redo w) = inr tt /\
  (history_index w <= 0 -> Cleaner.undo w = (inr tt, w)) /\
  (Py.len (history w) - 1 <= history_index w ->
   Cleaner.redo w = (inr tt, w)).
Proof.
  intros w.
  destruct (run_ops_ok xs init_window init_window_ok) as (Hok & Hr).
  fold w in Hok.
  repeat split.
  - exact Hr.
  - apply Hok.
  - apply Hok.
  - now apply undo_ok.
  - now apply redo_ok.
  - apply undo_noop.
  - apply redo_noop.
Qed.

End Engine.

End HistoryFacts.


(** After one record the cursor is 0, where undo has nothing to undo. *)
Lemma history_cursor_in_range_witness :
  let xs := [Cleaner.Edit (lit "a  b"); Cleaner.Record (lit "a  b");
             Cleaner.Undo] in
  let w := snd (Cleaner.run_ops str literal_compile literal_sub xs
                  init_window) in
  history_index w <= 0 /\ Cleaner.undo w = (inr tt, w).
Proof.
  intros xs w.
  assert (H : history_index w <= 0) by (vm_compute; discriminate).
  split; [exact H|].
  exact (proj1 (proj2 (proj2 (proj2 (proj2
           (HistoryFacts.history_cursor_in_range str literal_compile
              literal_sub xs))))) H).
Defined.

(** ** More on the scan *)

Module ScanMore.
Section Facts.

Variable isalnum : codepoint -> bool.
Variable lower : str -> str.

Local Abbreviation isword := (Scan.isword isalnum).
Local Abbreviation findall_words_from := (Scan.findall_words_from isalnum).
Local Abbreviation words_of := (Scan.words_of isalnum lower).
Local Abbreviation run := (Scan.run isalnum lower).

(** The scan delivers a report exactly for the texts without a word token,
    and a delivered report always says entropy 0, likelihood High and no top
    word. *)
Theorem report_only_without_words (text : str) :
  ((exists r, run text = ok r) <-> words_of text = []) /\
  forall r, run text = ok r ->
    word_entropy r = PyInt 0 /\ ai_likelihood r = "High"%string /\
    top_words r = [].
Proof.
  assert (Hcases : words_of text = [] \/
                   run text = raise (AttributeError "re" "log2")).
  { destruct (words_of text) as [|w ws] eqn:E; [now left|right].
    unfold Scan.run. rewrite E, <- E.
    rewrite ScanFacts.entropy_of_raises; [reflexivity|].
    rewrite E. discriminate. }
  split; [split|].
  - intros [r Hr]. destruct Hcases as [H|H]; [exact H|].
    rewrite H in Hr. discriminate.
  - intros H. eexists. now apply ScanFacts.run_without_words.
  - intros r Hr. destruct Hcases as [H|H]; [|rewrite H in Hr; discriminate].
    rewrite (ScanFacts.run_without_words isalnum lower text H) in Hr.
    injection Hr as <-. now repeat split.
Qed.

(** A delivered report lists at most ten occurrences, the first ten of the
    text in their order, each entry starting with the character it found;
    the count is never below the number of entries. *)
Theorem details_first_ten (text : str) (r : stats) :
  run text = ok r ->
  map (hd 0) (details r) = firstn 10 (filter unicode_pattern text) /\
  List.length (details r)
  = Nat.min 10 (List.length (filter unicode_pattern text)) /\
  Py.len (details r) <= invisible_chars r.
Proof.
  intros Hr.
  destruct (ScanFacts.run_report isalnum lower text r Hr) as (Hc & Hd & _).
  rewrite Hd, Hc, firstn_map, map_map.
  split; [|split].
  - rewrite <- (map_id (firstn 10 _)) at 2. apply map_ext.
    intros c. apply ScanFacts.describe_head.
  - now rewrite length_map, length_firstn.
  - unfold Py.len. rewrite length_map, length_firstn. lia.
Qed.

Lemma concat_findall_words (cur s : str) :
  List.concat (findall_words_from cur s) = rev cur ++ filter isword s.
Proof.
  revert cur. induction s as [|c s IH]; intros cur; simpl.
  - destruct cur; simpl; [reflexivity|]. now rewrite !app_nil_r.
  - destruct (Scan.isword isalnum c).
    + rewrite IH. simpl. now rewrite <- app_assoc.
    + destruct cur; [apply IH|]. simpl List.concat. now rewrite IH.
Qed.

Lemma findall_words_wellformed (cur s : str) :
  forallb isword cur = true ->
  Forall (fun w => w <> [] /\ forallb isword w = true)
         (findall_words_from cur s).
Proof.
  assert (Hrev : forall l, forallb isword l = true ->
                           forallb isword (rev l) = true).
  { intros l Hl. rewrite forallb_forall in *. intros x Hx.
    apply Hl. now apply in_rev. }
  assert (Hne : forall (a : codepoint) l, rev (a :: l) <> []).
  { intros a l H. apply (f_equal (@List.length _)) in H.
    rewrite length_rev in H. discriminate. }
  revert cur. induction s as [|c s IH]; intros cur Hcur; simpl.
  - destruct cur; constructor; [|constructor].
    split; [apply Hne|now apply Hrev].
  - destruct (Scan.isword isalnum c) eqn:E.
    + apply IH. simpl. now rewrite E.
    + destruct cur; [now apply IH|].
      constructor; [|now apply IH].
      split; [apply Hne|now apply Hrev].
Qed.

(** The tokens of line 61 are non-empty runs of word characters, and put
    end to end they are the word characters of the lower-cased text, in
    order: the tokeniser drops the other characters and nothing else. *)
Theorem words_keep_word_characters (text : str) :
  Forall (fun w => w <> [] /\ forallb isword w = true) (words_of text) /\
  List.concat (words_of text) = filter isword (lower text).
Proof.
  split.
  - now apply findall_words_wellformed.
  - unfold Scan.words_of. now rewrite concat_findall_words.
Qed.

End Facts.

Lemma str_eqb_eq (a b : str) : Py.str_eqb a b = true <-> a = b.
Proof.
  revert b. induction a as [|x a IH]; intros [|y b]; simpl; try easy.
  rewrite andb_true_iff, Z.eqb_eq, IH. split.
  - now intros [-> ->].
  - intros H. injection H as -> ->. now split.
Qed.

Local Abbreviation total c := (fold_right Z.add 0 (map snd c)).

Lemma counter_add_total (w : str) (c : list (str * Z)) :
  total (Scan.counter_add w c) = total c + 1.
Proof.
  induction c as [|[k n] c IH]; simpl; [reflexivity|].
  destruct (Py.str_eqb k w); simpl; lia.
Qed.

Lemma counter_add_keys (w : str) (c : list (str * Z)) :
  map fst (Scan.counter_add w c)
  = if existsb (fun k => Py.str_eqb k w) (map fst c) then map fst c
    else map fst c ++ [w].
Proof.
  induction c as [|[k n] c IH]; simpl; [reflexivity|].
  destruct (Py.str_eqb k w); simpl; [reflexivity|].
  rewrite IH. now destruct (existsb _ _).
Qed.

Lemma counter_add_positive (w : str) (c : list (str * Z)) :
  Forall (fun kv => 1 <= snd kv) c ->
  Forall (fun kv => 1 <= snd kv) (Scan.counter_add w c).
Proof.
  induction 1 as [|[k n] c Hk Hc IH]; simpl.
  - constructor; [simpl; lia|constructor].
  - destruct (Py.str_eqb k w); constructor; simpl in *; try lia; assumption.
Qed.

Lemma counter_add_nodup (w : str) (c : list (str * Z)) :
  NoDup (map fst c) -> NoDup (map fst (Scan.counter_add w c)).
Proof.
  intros Hc. rewrite counter_add_keys.
  destruct (existsb _ _) eqn:E; [exact Hc|].
  apply NoDup_app; [exact Hc|repeat constructor; easy|].
  intros k Hk [Hw|[]]. subst k.
  assert (existsb (fun k => Py.str_eqb k w) (map fst c) = true).
  { apply existsb_exists. exists w. split; [exact Hk|now apply str_eqb_eq]. }
  congruence.
Qed.

Lemma fold_counter_invariant (ws : list str) (c : list (str * Z)) :
  let c' := fold_left (fun c w => Scan.counter_add w c) ws c in
  (Forall (fun kv => 1 <= snd kv) c -> Forall (fun kv => 1 <= snd kv) c') /\
  (NoDup (map fst c) -> NoDup (map fst c')) /\
  total c' = total c + Py.len ws.
Proof.
  revert c. induction ws as [|w ws IH]; intros c; cbn [fold_left].
  - repeat split; try easy. unfold Py.len. simpl. lia.
  - destruct (IH (Scan.counter_add w c)) as (H1 & H2 & H3).
    repeat split.
    + intros H. now apply H1, counter_add_positive.
    + intros H. now apply H2, counter_add_nodup.
    + rewrite H3, counter_add_total. unfold Py.len. cbn [List.length]. lia.
Qed.

Lemma str_eqb_spec (a b : str) : reflect (a = b) (Py.str_eqb a b).
Proof. apply iff_reflect. symmetry. apply str_eqb_eq. Qed.

Lemma counter_get_add (k w : str) (c : list (str * Z)) :
  counter_get k (Scan.counter_add w c)
  = counter_get k c + (if Py.str_eqb k w then 1 else 0).
Proof.
  unfold counter_get.
  induction c as [|[k' n] c IH]; cbn [Scan.counter_add find fst snd].
  - destruct (str_eqb_spec w k), (str_eqb_spec k w);
      try congruence; reflexivity.
  - destruct (str_eqb_spec k' w) as [->|Hw]; cbn [find fst snd].
    + destruct (str_eqb_spec w k), (str_eqb_spec k w);
        try congruence; simpl; lia.
    + destruct (str_eqb_spec k' k) as [->|Hk]; [|exact IH].
      destruct (str_eqb_spec k w); [congruence|simpl; lia].
Qed.

Lemma counter_get_fold (k : str) (ws : list str) (c : list (str * Z)) :
  counter_get k (fold_left (fun c w => Scan.counter_add w c) ws c)
  = counter_get k c + Py.len (filter (Py.str_eqb k) ws).
Proof.
  revert c. induction ws as [|w ws IH]; intros c; cbn [fold_left filter].
  - unfold Py.len. simpl. lia.
  - rewrite IH, counter_get_add. unfold Py.len.
    destruct (Py.str_eqb k w); cbn [List.length]; lia.
Qed.

Lemma counter_get_in (k : str) (n : Z) (c : list (str * Z)) :
  NoDup (map fst c) -> In (k, n) c -> counter_get k c = n.
Proof.
  unfold counter_get.
  induction c as [|[k' n'] c IH]; [easy|]. cbn [map fst find snd].
  intros Hd Hin. inversion Hd as [|? ? Hk' Hd']; subst.
  destruct Hin as [[= -> ->]|Hin].
  - now destruct (str_eqb_spec k k).
  - destruct (str_eqb_spec k' k) as [->|_]; [|now apply IH].
    exfalso. apply Hk'. now apply (in_map fst) in Hin.
Qed.

(** The keys stand in the order in which the words first come. *)
Lemma counter_keys_order (l : list str) :
  map fst (fold_right (fun w c => Scan.counter_add w c) [] l)
  = rev (nodup str_eq_dec l).
Proof.
  induction l as [|w l IH]; [reflexivity|].
  cbn [fold_right nodup]. rewrite counter_add_keys, IH.
  destruct (in_dec str_eq_dec w l) as [Hin|Hin];
    destruct (existsb _ _) eqn:E; try reflexivity.
  - exfalso. apply (Bool.eq_true_false_abs _ eq_refl).
    rewrite <- E. symmetry. apply existsb_exists. exists w.
    split; [|now apply str_eqb_eq].
    apply -> in_rev. now apply nodup_In.
  - exfalso. apply existsb_exists in E. destruct E as (k & Hk & Hkw).
    apply str_eqb_eq in Hkw. subst k.
    apply in_rev in Hk. now apply nodup_In in Hk.
Qed.

(** [Counter(words)]: the keys are the distinct tokens, each once, in the
    order in which they first come; the count of a key is the number of
    tokens equal to it, so every count is at least 1; and the counts add up
    to the number of tokens, which line 64 divides by. *)
Theorem Counter_counts (ws : list str) :
  map fst (Scan.Counter ws) = rev (nodup str_eq_dec (rev ws)) /\
  NoDup (map fst (Scan.Counter ws)) /\
  (forall k, In k (map fst (Scan.Counter ws)) <-> In k ws) /\
  (forall k n,
     In (k, n) (Scan.Counter ws)
     <-> In k ws /\ n = Py.len (filter (Py.str_eqb k) ws)) /\
  Forall (fun kv => 1 <= snd kv) (Scan.Counter ws) /\
  fold_right Z.add 0 (map snd (Scan.Counter ws)) = Py.len ws.
Proof.
  destruct (fold_counter_invariant ws []) as (H1 & H2 & H3).
  assert (Hd : NoDup (map fst (Scan.Counter ws))) by (apply H2; constructor).
  assert (Ho : map fst (Scan.Counter ws) = rev (nodup str_eq_dec (rev ws))).
  { unfold Scan.Counter. rewrite <- counter_keys_order.
    now rewrite fold_left_rev_right. }
  assert (Hk : forall k, In k (map fst (Scan.Counter ws)) <-> In k ws).
  { intros k. rewrite Ho, <- in_rev, nodup_In, <- in_rev. reflexivity. }
  assert (Hg : forall k, counter_get k (Scan.Counter ws)
                         = Py.len (filter (Py.str_eqb k) ws)).
  { intros k. unfold Scan.Counter. now rewrite counter_get_fold. }
  split; [exact Ho|]. split; [exact Hd|]. split; [exact Hk|].
  split; [|split; [apply H1; constructor|exact H3]].
  intros k n. split.
  - intros Hin. split.
    + apply Hk. now apply (in_map fst) in Hin.
    + rewrite <- Hg. symmetry. now apply counter_get_in.
  - intros [Hin ->]. apply Hk in Hin. apply in_map_iff in Hin.
    destruct Hin as ([k' n'] & Hf & Hin). cbn [fst] in Hf. subst k'.
    rewrite <- Hg, (counter_get_in k n' _ Hd Hin). exact Hin.
Qed.

End ScanMore.

(** The ten most common words *)

Module MostCommonFacts.

Lemma insert_by_count_perm (x : str * Z) (l : list (str * Z)) :
  Permutation (Scan.insert_by_count x l) (x :: l).
Proof.
  induction l as [|y l IH]; simpl; [reflexivity|].
  destruct (snd x <? snd y); [|reflexivity].
  rewrite IH. apply perm_swap.
Qed.

Lemma insert_by_count_sorted (x : str * Z) (l : list (str * Z)) :
  StronglySorted count_ge l ->
  StronglySorted count_ge (Scan.insert_by_count x l).
Proof.
  induction 1 as [|y l Hl IH Hy]; simpl.
  - repeat constructor.
  - destruct (snd x <? snd y) eqn:E.
    + constructor; [exact IH|].
      rewrite (insert_by_count_perm x l).
      constructor; [unfold count_ge; lia|exact Hy].
    + assert (Hxy : count_ge x y) by (unfold count_ge; lia).
      constructor; [now constructor|].
      constructor; [exact Hxy|].
      eapply Forall_impl; [|exact Hy].
      intros z Hz. unfold count_ge in *. lia.
Qed.

Lemma sort_by_count (c : list (str * Z)) :
  StronglySorted count_ge (fold_right Scan.insert_by_count [] c) /\
  Permutation (fold_right Scan.insert_by_count [] c) c.
Proof.
  induction c as [|x c [IH1 IH2]]; simpl.
  - split; constructor.
  - split; [now apply insert_by_count_sorted|].
    rewrite insert_by_count_perm. now constructor.
Qed.

Lemma sorted_split (l1 l2 : list (str * Z)) :
  StronglySorted count_ge (l1 ++ l2) ->
  StronglySorted count_ge l1 /\
  Forall (fun low => Forall (fun top => count_ge top low) l1) l2.
Proof.
  induction l1 as [|x l1 IH]; simpl; intros H.
  - split; [constructor|]. apply Forall_forall. intros; constructor.
  - inversion H as [|? ? Hs Hx]; subst.
    destruct (IH Hs) as [H1 H2].
    apply Forall_app in Hx. destruct Hx as [Hx1 Hx2].
    split; [now constructor|].
    rewrite Forall_forall in *. intros low Hlow.
    constructor; [now apply Hx2|now apply H2].
Qed.

(** [most_common(n)] gives at most [n] items by decreasing count, and the
    items it leaves out have counts no higher than any it gives: with them
    it makes up the whole counter. *)
Theorem most_common_largest (n : nat) (c : list (str * Z)) :
  StronglySorted count_ge (Scan.most_common n c) /\
  List.length (Scan.most_common n c) = Nat.min n (List.length c) /\
  exists rest,
    Permutation (Scan.most_common n c ++ rest) c /\
    Forall (fun low => Forall (fun top => count_ge top low)
                              (Scan.most_common n c)) rest.
Proof.
  unfold Scan.most_common.
  destruct (sort_by_count c) as [Hs Hp].
  set (sorted := fold_right Scan.insert_by_count [] c) in *.
  rewrite <- (firstn_skipn n sorted) in Hs.
  destruct (sorted_split _ _ Hs) as [H1 H2].
  split; [exact H1|]. split.
  - rewrite length_firstn. now rewrite (Permutation_length Hp).
  - exists (skipn n sorted). split; [|exact H2].
    now rewrite firstn_skipn.
Qed.

End MostCommonFacts.

(** A text of three characters, two of them of the pattern and no word. *)
Lemma report_only_without_words_witness :
  let text := [ZWSP; 32; EM_DASH] in
  exists r, Scan.run ascii_isalnum ascii_lower text = ok r /\
            ai_likelihood r = "High"%string.
Proof.
  intros text. eexists. split; [reflexivity|].
  exact (proj1 (proj2 (proj2 (ScanMore.report_only_without_words
                 ascii_isalnum ascii_lower text) _ eq_refl))).
Defined.

(** Twelve zero-width spaces: twelve are counted and ten are listed. *)
Lemma details_first_ten_witness :
  let text := repeat ZWSP 12 in
  exists r, Scan.run ascii_isalnum ascii_lower text = ok r /\
            invisible_chars r = 12 /\ List.length (details r) = 10%nat.
Proof.
  intros text. eexists. split; [reflexivity|]. split; [reflexivity|].
  exact (proj1 (proj2 (ScanMore.details_first_ten
                 ascii_isalnum ascii_lower text _ eq_refl))).
Defined.

(** ** More on the rendering *)

Module RenderMore.

Local Abbreviation visible_text := Cleaner.visible_text.

Lemma visible_text_char (c : codepoint) : visible_text [c] = render_char c.
Proof.
  unfold render_char.
  destruct (Z.eqb_spec c 32) as [->|H32]; [reflexivity|].
  destruct (Z.eqb_spec c 9) as [->|H9]; [reflexivity|].
  destruct (Z.eqb_spec c 10) as [->|H10]; [reflexivity|].
  destruct (Z.eqb_spec c NNBSP) as [->|H1]; [reflexivity|].
  destruct (Z.eqb_spec c ZWSP) as [->|H2]; [reflexivity|].
  destruct (Z.eqb_spec c ZWNBSP) as [->|H3]; [reflexivity|].
  unfold Cleaner.visible_text, Py.replace, Py.sub_class. simpl.
  apply Z.eqb_neq in H32, H9, H10, H1, H2, H3.
  rewrite H32. simpl. rewrite H9. simpl. rewrite H10. simpl.
  unfold Cleaner.replace_invisible, Py.mem. simpl.
  rewrite H1, H2, H3. simpl. now destruct (unicode_pattern c).
Qed.

Lemma visible_text_render_char (text : str) :
  visible_text text = flat_map render_char text.
Proof.
  rewrite RenderFacts.visible_text_flat_map. apply flat_map_ext.
  apply visible_text_char.
Qed.

(** The four passes of [detect_whitespace] amount to one pass that maps each
    character on its own, and the rendering is longer than the text by one
    character per newline. *)
Theorem visible_text_one_pass (text : str) :
  visible_text text = flat_map render_char text /\
  Py.len (visible_text text) = Py.len text + Cleaner.count_char 10 text.
Proof.
  split; [apply visible_text_render_char|].
  rewrite visible_text_render_char.
  unfold Cleaner.count_char, Py.len.
  induction text as [|c text IH]; [reflexivity|].
  cbn [flat_map filter]. rewrite length_app.
  rewrite Nat2Z.inj_add, IH.
  destruct (Z.eqb_spec c 10) as [->|H10].
  - change (render_char 10) with [PILCROW; 10].
    change (10 =? 10) with true. cbn [List.length]. lia.
  - unfold render_char. replace (10 =? c) with false by lia.
    replace (c =? 10) with false by lia.
    cbn [List.length].
    repeat match goal with
           | |- context [if ?b then _ else _] => destruct b
           end; cbn [List.length]; lia.
Qed.

Lemma render_char_never_raw (c : codepoint) :
  Forall (fun x => x <> 32 /\ x <> 9 /\ x <> NNBSP /\ x <> ZWSP
                   /\ x <> ZWNBSP) (render_char c).
Proof.
  unfold render_char.
  destruct (Z.eqb_spec c 32); [repeat constructor; discriminate|].
  destruct (Z.eqb_spec c 9); [repeat constructor; discriminate|].
  destruct (Z.eqb_spec c 10); [repeat constructor; discriminate|].
  destruct (Z.eqb_spec c NNBSP); [repeat constructor; discriminate|].
  destruct (Z.eqb_spec c ZWSP); [repeat constructor; discriminate|].
  destruct (Z.eqb_spec c ZWNBSP); [repeat constructor; discriminate|].
  simpl. repeat constructor; assumption.
Qed.

(** The rendering never contains a space, a tab, a narrow no-break space, a
    zero-width space or a zero-width no-break space: each of them has become
    its marker. *)
Theorem visible_text_never_raw (text : str) :
  Forall (fun x => x <> 32 /\ x <> 9 /\ x <> NNBSP /\ x <> ZWSP
                   /\ x <> ZWNBSP) (visible_text text).
Proof.
  rewrite visible_text_render_char.
  induction text as [|c text IH]; simpl; [constructor|].
  apply Forall_app. split; [apply render_char_never_raw|exact IH].
Qed.

End RenderMore.

Module RenderLines.

Local Abbreviation visible_text := Cleaner.visible_text.

Lemma render_char_cases (c : codepoint) :
  (c = 10 /\ render_char c = [PILCROW; 10]) \/
  (exists x, render_char c = [x] /\ x <> 10).
Proof.
  unfold render_char.
  destruct (Z.eqb_spec c 32); [right; eexists; split; [reflexivity|easy]|].
  destruct (Z.eqb_spec c 9); [right; eexists; split; [reflexivity|easy]|].
  destruct (Z.eqb_spec c 10); [now left|].
  right.
  destruct (c =? NNBSP); [eexists; split; [reflexivity|easy]|].
  destruct ((c =? ZWSP) || (c =? ZWNBSP));
    eexists; (split; [reflexivity|easy]).
Qed.

Lemma flat_map_render_newline (text pre post : str) :
  flat_map render_char text = pre ++ 10 :: post ->
  exists pre', pre = pre' ++ [PILCROW].
Proof.
  revert pre. induction text as [|c text IH]; intros pre H; simpl in H.
  - now destruct pre.
  - destruct (render_char_cases c) as [[-> E]|(x & E & Hx)]; rewrite E in H.
    + destruct pre as [|a [|b pre]]; simpl in H.
      * discriminate.
      * injection H as <- _. now exists [].
      * injection H as <- <- H. destruct (IH pre H) as [p ->].
        now exists (PILCROW :: 10 :: p).
    + destruct pre as [|a pre]; simpl in H.
      * injection H as H _. congruence.
      * injection H as <- H. destruct (IH pre H) as [p ->].
        now exists (x :: p).
Qed.

Lemma filter_newline_render (text : str) :
  filter (Z.eqb 10) (flat_map render_char text) = filter (Z.eqb 10) text.
Proof.
  induction text as [|c text IH]; [reflexivity|].
  cbn [flat_map filter]. rewrite filter_app.
  unfold codepoint in *. rewrite IH.
  destruct (render_char_cases c) as [[-> E]|(x & E & Hx)]; rewrite E.
  - reflexivity.
  - cbn [filter]. replace (10 =? x) with false by lia.
    destruct (Z.eqb_spec 10 c) as [<-|Hc]; [|reflexivity].
    cbv in E. discriminate E.
Qed.

(** The rendering has as many newlines as the text, and in it every newline
    comes right after a pilcrow. *)
Theorem newline_after_pilcrow (text : str) :
  Cleaner.count_char 10 (visible_text text) = Cleaner.count_char 10 text /\
  forall pre post, visible_text text = pre ++ 10 :: post ->
                   exists pre', pre = pre' ++ [PILCROW].
Proof.
  rewrite RenderMore.visible_text_render_char. split.
  - unfold Cleaner.count_char. now rewrite filter_newline_render.
  - intros pre post. apply flat_map_render_newline.
Qed.

End RenderLines.

(** In the rendering of ["a"], newline, ["b"] the newline follows a
    pilcrow. *)
Lemma newline_after_pilcrow_witness :
  exists pre', [97; PILCROW] = pre' ++ [PILCROW].
Proof.
  exact (proj2 (RenderLines.newline_after_pilcrow [97; 10; 98])
           [97; PILCROW] [98] eq_refl).
Defined.

(** ** The built-in rules *)

Module RuleFacts.

Lemma standard_cleaning_steps (o : options) (text : str) :
  Cleaner.standard_cleaning o text
  = invisible_rule o (trim_rule o (newlines_rule o (expand_tabs_rule o
      (strip_tabs_rule o (collapse_rule o text))))).
Proof. reflexivity. Qed.

(** Where the characters of each step come from. *)
Lemma replace_in (old : codepoint) (new s : str) (x : codepoint) :
  In x (Py.replace old new s) -> In x new \/ (In x s /\ x <> old).
Proof.
  unfold Py.replace. rewrite in_flat_map. intros (c & Hc & Hx).
  destruct (Z.eqb_spec c old); [now left|].
  destruct Hx as [<-|[]]. right. now split.
Qed.

Lemma sub_class_in (cls : codepoint -> bool) (f : codepoint -> str)
    (s : str) (x : codepoint) :
  In x (Py.sub_class cls f s) ->
  (exists c, In c s /\ cls c = true /\ In x (f c)) \/
  (In x s /\ cls x = false).
Proof.
  unfold Py.sub_class. rewrite in_flat_map. intros (c & Hc & Hx).
  destruct (cls c) eqn:E; [left; now exists c|].
  destruct Hx as [<-|[]]. right. now split.
Qed.

Lemma sub_runs_in (cls : codepoint -> bool) (rep : str) (b : bool)
    (s : str) (x : codepoint) :
  In x (Py.sub_runs cls rep b s) ->
  (In x s /\ cls x = false) \/
  (In x rep /\ exists c, In c s /\ cls c = true).
Proof.
  revert b. induction s as [|c s IH]; intros b; simpl; [easy|].
  destruct (cls c) eqn:E.
  - rewrite in_app_iff. intros [H|H].
    + right. destruct b; [easy|]. split; [exact H|]. exists c. now split; [left|].
    + destruct (IH _ H) as [[H1 H2]|[H1 (d & H2 & H3)]].
      * left. now split; [right|].
      * right. split; [exact H1|]. exists d. now split; [right|].
  - intros [<-|H].
    + left. now split; [left|].
    + destruct (IH _ H) as [[H1 H2]|[H1 (d & H2 & H3)]].
      * left. now split; [right|].
      * right. split; [exact H1|]. exists d. now split; [right|].
Qed.

Lemma lstrip_suffix (s : str) : exists p, s = p ++ Py.lstrip s.
Proof.
  induction s as [|c s [p IH]]; simpl; [now exists []|].
  destruct (Py.isspace c); [|now exists []].
  exists (c :: p). simpl. now rewrite <- IH.
Qed.

Lemma strip_infix (s : str) : exists p q, s = p ++ Py.strip s ++ q.
Proof.
  destruct (lstrip_suffix s) as [p Hp].
  destruct (lstrip_suffix (rev (Py.lstrip s))) as [q Hq].
  exists p, (rev q). unfold Py.strip.
  rewrite <- rev_app_distr, <- Hq, rev_involutive. exact Hp.
Qed.

Lemma strip_in (s : str) (x : codepoint) : In x (Py.strip s) -> In x s.
Proof.
  destruct (strip_infix s) as (p & q & H). intros Hx.
  rewrite H, !in_app_iff. tauto.
Qed.

Lemma splitlines_from_break (cur : str) (c : codepoint) (s : str) :
  Py.islinebreak c = true ->
  Py.splitlines_from cur (c :: s)
  = rev cur :: Py.splitlines_from [] (after_break c s).
Proof.
  intros E. cbn [Py.splitlines_from]. rewrite E. unfold after_break.
  destruct s as [|d s]; [reflexivity|].
  now destruct ((c =? 13) && (d =? 10)).
Qed.

Lemma splitlines_from_char (cur : str) (c : codepoint) (s : str) :
  Py.islinebreak c = false ->
  Py.splitlines_from cur (c :: s) = Py.splitlines_from (c :: cur) s.
Proof. intros E. cbn [Py.splitlines_from]. now rewrite E. Qed.

Lemma after_break_length (c : codepoint) (s : str) :
  (List.length (after_break c s) <= List.length s)%nat.
Proof.
  unfold after_break. destruct s as [|d s]; [easy|].
  destruct ((c =? 13) && (d =? 10)); simpl; lia.
Qed.

Lemma after_break_in (c : codepoint) (s : str) (x : codepoint) :
  In x (after_break c s) -> In x s.
Proof.
  unfold after_break. destruct s as [|d s]; [easy|].
  destruct ((c =? 13) && (d =? 10)); [now right|easy].
Qed.

(** Induction along the way [splitlines] reads its text. *)
Lemma splitlines_from_ind (P : str -> str -> list str -> Prop) :
  (forall cur, P cur [] (match cur with [] => [] | _ => [rev cur] end)) ->
  (forall cur c s,
     Py.islinebreak c = false ->
     P (c :: cur) s (Py.splitlines_from (c :: cur) s) ->
     P cur (c :: s) (Py.splitlines_from (c :: cur) s)) ->
  (forall cur c s,
     Py.islinebreak c = true ->
     P [] (after_break c s) (Py.splitlines_from [] (after_break c s)) ->
     P cur (c :: s) (rev cur :: Py.splitlines_from [] (after_break c s))) ->
  forall cur s, P cur s (Py.splitlines_from cur s).
Proof.
  intros Hnil Hchar Hbreak cur s.
  remember (List.length s) as n eqn:En.
  assert (Hn : (List.length s <= n)%nat) by lia. clear En.
  revert cur s Hn. induction n as [|n IH]; intros cur s Hn.
  - destruct s; [apply Hnil|simpl in Hn; lia].
  - destruct s as [|c s]; [apply Hnil|]. simpl in Hn.
    destruct (Py.islinebreak c) eqn:E.
    + rewrite splitlines_from_break by exact E.
      apply Hbreak; [exact E|]. apply IH.
      pose proof (after_break_length c s). lia.
    + rewrite splitlines_from_char by exact E.
      apply Hchar; [exact E|]. apply IH. lia.
Qed.

(** A line of [splitlines] holds no line break, and its characters are
    characters of the text. *)
Lemma splitlines_from_in (cur s : str) :
  Forall (fun c => Py.islinebreak c = false) cur ->
  Forall (fun l => forall x, In x l ->
                     Py.islinebreak x = false /\ (In x cur \/ In x s))
         (Py.splitlines_from cur s).
Proof.
  assert (Hrev : forall (cur0 s0 : str) (x : codepoint),
             Forall (fun c => Py.islinebreak c = false) cur0 ->
             In x (rev cur0) ->
             Py.islinebreak x = false /\ (In x cur0 \/ In x s0)).
  { intros cur0 s0 x H Hx. apply in_rev in Hx. split; [|now left].
    rewrite Forall_forall in H. now apply H. }
  apply (splitlines_from_ind
           (fun cur s ls =>
              Forall (fun c => Py.islinebreak c = false) cur ->
              Forall (fun l => forall x, In x l ->
                         Py.islinebreak x = false /\ (In x cur \/ In x s))
                     ls)).
  - intros cur0 H. destruct cur0 as [|a cur0]; constructor; [|constructor].
    intros x Hx. now apply Hrev.
  - intros cur0 c s0 E IH H.
    eapply Forall_impl; [|apply IH; now constructor].
    intros l Hl x Hx. destruct (Hl x Hx) as [H1 [[<-|H2]|H2]].
    + split; [exact H1|]. right. now left.
    + split; [exact H1|]. now left.
    + split; [exact H1|]. right. now right.
  - intros cur0 c s0 E IH H. constructor.
    + intros x Hx. now apply Hrev.
    + eapply Forall_impl; [|apply IH; constructor].
      intros l Hl x Hx. destruct (Hl x Hx) as [H1 [[]|H2]].
      split; [exact H1|]. right. right. now apply after_break_in in H2.
Qed.

(** Without a line break in the text there is at most one line, the text
    itself. *)
Lemma splitlines_from_one_line (cur s : str) :
  Forall (fun c => Py.islinebreak c = false) s ->
  Py.splitlines_from cur s
  = match rev cur ++ s with [] => [] | l => [l] end.
Proof.
  revert cur. induction s as [|c s IH]; intros cur H.
  - simpl. rewrite app_nil_r. destruct cur as [|a cur]; [reflexivity|].
    destruct (rev (a :: cur)) eqn:E; [|reflexivity].
    apply (f_equal (@List.length _)) in E. rewrite length_rev in E.
    discriminate.
  - inversion H as [|? ? Hc Hs]; subst.
    rewrite splitlines_from_char by exact Hc. rewrite IH by exact Hs.
    simpl. now rewrite <- app_assoc.
Qed.

Lemma join_in (sep : str) (ps : list str) (x : codepoint) :
  In x (Py.join sep ps) ->
  (In x sep /\ (2 <= List.length ps)%nat) \/ exists p, In p ps /\ In x p.
Proof.
  induction ps as [|p ps IH]; [easy|].
  destruct ps as [|q ps].
  - intros H. right. exists p. split; [now left|exact H].
  - cbn [Py.join]. rewrite !in_app_iff. intros [H|[H|H]].
    + right. exists p. split; [now left|exact H].
    + left. split; [exact H|simpl; lia].
    + destruct (IH H) as [[H1 H2]|(r & H1 & H2)].
      * left. split; [exact H1|simpl; lia].
      * right. exists r. split; [now right|exact H2].
Qed.

Lemma trim_in (text : str) (x : codepoint) :
  In x (trim text) ->
  (In x text /\ Py.islinebreak x = false) \/
  (x = 10 /\ exists c, In c text /\ Py.islinebreak c = true).
Proof.
  unfold trim. intros H. apply join_in in H.
  destruct H as [[[<-|[]] Hlen]|(p & Hp & Hx)].
  - right. split; [reflexivity|].
    destruct (existsb Py.islinebreak text) eqn:E.
    + apply existsb_exists in E. exact E.
    + exfalso. rewrite length_map in Hlen. unfold Py.splitlines in Hlen.
      rewrite splitlines_from_one_line in Hlen.
      * simpl in Hlen. destruct text; simpl in Hlen; lia.
      * apply Forall_forall. intros c Hc.
        destruct (Py.islinebreak c) eqn:Ec; [|reflexivity].
        assert (existsb Py.islinebreak text = true)
          by (apply existsb_exists; now exists c).
        congruence.
  - left. apply in_map_iff in Hp. destruct Hp as (l & <- & Hl).
    apply strip_in in Hx.
    pose proof (splitlines_from_in [] text (Forall_nil _)) as Hall.
    rewrite Forall_forall in Hall.
    destruct (Hall l Hl x Hx) as [H1 [[]|H2]]. now split.
Qed.

(** The built-in rules bring in no character but the space and the
    newline: every other character of the cleaned text is one of the
    input. *)
Theorem standard_cleaning_characters (o : options) (text : str) :
  Forall (fun x => In x text \/ x = 32 \/ x = 10)
         (Cleaner.standard_cleaning o text).
Proof.
  rewrite standard_cleaning_steps. apply Forall_forall. intros x Hx.
  unfold invisible_rule in Hx. 
  assert (H5 : In x (trim_rule o (newlines_rule o (expand_tabs_rule o
                 (strip_tabs_rule o (collapse_rule o text))))) \/ x = 32).
  { destruct (remove_invisible o); [|now left].
    apply sub_class_in in Hx.
    destruct Hx as [(c & _ & _ & [<-|[]])|[Hx _]]; [now right|now left]. }
  clear Hx. destruct H5 as [Hx|Hx]; [|now right; left].
  unfold trim_rule in Hx.
  assert (H4 : In x (newlines_rule o (expand_tabs_rule o
                 (strip_tabs_rule o (collapse_rule o text)))) \/ x = 10).
  { destruct (trim_lines o); [|now left].
    apply trim_in in Hx. destruct Hx as [[Hx _]|[Hx _]]; [now left|now right]. }
  clear Hx. destruct H4 as [Hx|Hx]; [|now right; right].
  unfold newlines_rule in Hx.
  assert (H3 : In x (expand_tabs_rule o
                 (strip_tabs_rule o (collapse_rule o text))) \/ x = 10).
  { destruct (remove_newlines o); [|now left].
    apply sub_runs_in in Hx.
    destruct Hx as [[Hx _]|[[<-|[]] _]]; [now left|now right]. }
  clear Hx. destruct H3 as [Hx|Hx]; [|now right; right].
  unfold expand_tabs_rule in Hx.
  assert (H2 : In x (strip_tabs_rule o (collapse_rule o text)) \/ x = 32).
  { destruct (replace_tabs o); [|now left].
    apply replace_in in Hx. destruct Hx as [Hx|[Hx _]]; [|now left].
    right. now apply repeat_spec in Hx. }
  clear Hx. destruct H2 as [Hx|Hx]; [|now right; left].
  unfold strip_tabs_rule in Hx.
  assert (H1 : In x (collapse_rule o text)).
  { destruct (remove_tabs o); [|exact Hx].
    apply replace_in in Hx. now destruct Hx as [[]|[Hx _]]. }
  clear Hx. unfold collapse_rule in H1.
  destruct (remove_spaces o); [|now left].
  apply sub_runs_in in H1.
  destruct H1 as [[Hx _]|[[<-|[]] _]]; [now left|now right; left].
Qed.

End RuleFacts.

Module RuleEffects.

Import RuleFacts.

(** One step back through each rule. *)
Lemma collapse_rule_in (o : options) (t : str) (x : codepoint) :
  In x (collapse_rule o t) -> In x t \/ x = 32.
Proof.
  unfold collapse_rule. destruct (remove_spaces o); [|now left].
  intros H. apply sub_runs_in in H.
  destruct H as [[H _]|[[<-|[]] _]]; [now left|now right].
Qed.

Lemma strip_tabs_rule_in (o : options) (t : str) (x : codepoint) :
  In x (strip_tabs_rule o t) -> In x t.
Proof.
  unfold strip_tabs_rule. destruct (remove_tabs o); [|easy].
  intros H. apply replace_in in H. now destruct H as [[]|[H _]].
Qed.

Lemma expand_tabs_rule_in (o : options) (t : str) (x : codepoint) :
  In x (expand_tabs_rule o t) -> In x t \/ x = 32.
Proof.
  unfold expand_tabs_rule. destruct (replace_tabs o); [|now left].
  intros H. apply replace_in in H. destruct H as [H|[H _]]; [|now left].
  right. now apply repeat_spec in H.
Qed.

Lemma newlines_rule_in (o : options) (t : str) (x : codepoint) :
  In x (newlines_rule o t) -> In x t.
Proof.
  unfold newlines_rule. destruct (remove_newlines o); [|easy].
  intros H. apply sub_runs_in in H.
  destruct H as [[H _]|[[<-|[]] (c & Hc & E)]]; [exact H|].
  apply Z.eqb_eq in E. now subst c.
Qed.

Lemma trim_rule_in (o : options) (t : str) (x : codepoint) :
  In x (trim_rule o t) ->
  In x t \/ (x = 10 /\ exists c, In c t /\ Py.islinebreak c = true).
Proof.
  unfold trim_rule. destruct (trim_lines o); [|now left].
  intros H. apply trim_in in H. destruct H as [[H _]|H]; [now left|now right].
Qed.

Lemma invisible_rule_in (o : options) (t : str) (x : codepoint) :
  In x (invisible_rule o t) -> In x t \/ x = 32.
Proof.
  unfold invisible_rule. destruct (remove_invisible o); [|now left].
  intros H. apply sub_class_in in H.
  destruct H as [(c & _ & _ & [<-|[]])|[H _]]; [now right|now left].
Qed.

Lemma count_char_absent (c : codepoint) (t : str) :
  ~ In c t -> Cleaner.count_char c t = 0.
Proof.
  intros H. unfold Cleaner.count_char.
  replace (filter (Z.eqb c) t) with (@nil codepoint); [reflexivity|].
  symmetry. induction t as [|x t IH]; [reflexivity|]. simpl.
  destruct (Z.eqb_spec c x) as [->|_].
  - exfalso. apply H. now left.
  - apply IH. intros Hin. apply H. now right.
Qed.

Lemma standard_cleaning_no_tab (o : options) (text : str) :
  remove_tabs o = true \/ replace_tabs o = true ->
  ~ In 9 (Cleaner.standard_cleaning o text).
Proof.
  intros Ho. rewrite standard_cleaning_steps. intros H.
  apply invisible_rule_in in H. destruct H as [H|H]; [|discriminate].
  apply trim_rule_in in H. destruct H as [H|[H _]]; [|discriminate].
  apply newlines_rule_in in H.
  unfold expand_tabs_rule in H. destruct (replace_tabs o).
  - apply replace_in in H. destruct H as [H|[_ H]]; [|easy].
    apply repeat_spec in H. discriminate.
  - unfold strip_tabs_rule in H. destruct (remove_tabs o).
    + apply replace_in in H. destruct H as [[]|[_ H]]. easy.
    + now destruct Ho.
Qed.

(** With either tab box ticked the built-in rules leave no tab in the
    text. *)
Theorem no_tab_left (o : options) (text : str) :
  remove_tabs o = true \/ replace_tabs o = true ->
  ~ In 9 (Cleaner.standard_cleaning o text) /\
  Cleaner.count_char 9 (Cleaner.standard_cleaning o text) = 0.
Proof.
  intros Ho. pose proof (standard_cleaning_no_tab o text Ho) as H.
  split; [exact H|now apply count_char_absent].
Qed.

Lemma standard_cleaning_no_watermark (o : options) (text : str) :
  remove_invisible o = true ->
  filter unicode_pattern (Cleaner.standard_cleaning o text) = [].
Proof.
  intros Ho. rewrite standard_cleaning_steps. unfold invisible_rule.
  rewrite Ho.
  generalize (trim_rule o (newlines_rule o (expand_tabs_rule o
                (strip_tabs_rule o (collapse_rule o text))))).
  intros t. unfold Py.sub_class.
  induction t as [|c t IH]; [reflexivity|]. cbn [flat_map].
  rewrite filter_app, IH, app_nil_r.
  now destruct (unicode_pattern c) eqn:E; simpl; rewrite ?E.
Qed.

(** With the box for invisible characters ticked the built-in rules leave
    no character of the pattern, so that the occurrence pass of the scan
    finds nothing in the cleaned text. *)
Theorem no_watermark_left (o : options) (text : str) :
  remove_invisible o = true ->
  filter unicode_pattern (Cleaner.standard_cleaning o text) = [] /\
  Scan.scan_invisible (Cleaner.standard_cleaning o text) = [].
Proof.
  intros Ho. pose proof (standard_cleaning_no_watermark o text Ho) as H.
  split; [exact H|].
  now rewrite ScanFacts.scan_invisible_filter, H.
Qed.

Lemma linebreak_isspace (c : codepoint) :
  Py.islinebreak c = true -> Py.isspace c = true.
Proof. unfold Py.islinebreak, Py.isspace. lia. Qed.

(** With the box for extra spaces ticked, the only white-space character in
    the cleaned text is the plain space. *)
Theorem only_plain_spaces (o : options) (text : str) :
  remove_spaces o = true ->
  Forall (fun x => Py.isspace x = true -> x = 32)
         (Cleaner.standard_cleaning o text).
Proof.
  intros Ho. rewrite standard_cleaning_steps.
  set (P := fun t : str => forall x, In x t -> Py.isspace x = true -> x = 32).
  assert (H1 : P (collapse_rule o text)).
  { intros x Hx Hs. unfold collapse_rule in Hx. rewrite Ho in Hx.
    apply sub_runs_in in Hx.
    destruct Hx as [[_ Hx]|[[<-|[]] _]]; [congruence|reflexivity]. }
  assert (H2 : P (strip_tabs_rule o (collapse_rule o text))).
  { intros x Hx. apply strip_tabs_rule_in in Hx. now apply H1. }
  assert (H3 : P (expand_tabs_rule o (strip_tabs_rule o
                    (collapse_rule o text)))).
  { intros x Hx. apply expand_tabs_rule_in in Hx.
    destruct Hx as [Hx|Hx]; [now apply H2|easy]. }
  assert (H4 : P (newlines_rule o (expand_tabs_rule o (strip_tabs_rule o
                    (collapse_rule o text))))).
  { intros x Hx. apply newlines_rule_in in Hx. now apply H3. }
  assert (H5 : P (trim_rule o (newlines_rule o (expand_tabs_rule o
                    (strip_tabs_rule o (collapse_rule o text)))))).
  { intros x Hx. apply trim_rule_in in Hx.
    destruct Hx as [Hx|[_ (c & Hc & E)]]; [now apply H4|].
    pose proof (H4 c Hc (linebreak_isspace c E)) as ->. discriminate. }
  apply Forall_forall. intros x Hx. apply invisible_rule_in in Hx.
  destruct Hx as [Hx|Hx]; [now apply H5|easy].
Qed.

(** With the box for trimming ticked, every line break of the cleaned text
    is a newline: the other line boundaries that [splitlines] knows have
    become newlines. *)
Theorem only_newline_breaks (o : options) (text : str) :
  trim_lines o = true ->
  Forall (fun x => Py.islinebreak x = true -> x = 10)
         (Cleaner.standard_cleaning o text).
Proof.
  intros Ho. rewrite standard_cleaning_steps.
  apply Forall_forall. intros x Hx E.
  apply invisible_rule_in in Hx. destruct Hx as [Hx| ->]; [|discriminate].
  unfold trim_rule in Hx. rewrite Ho in Hx. apply trim_in in Hx.
  destruct Hx as [[_ Hx]|[Hx _]]; [congruence|exact Hx].
Qed.

End RuleEffects.

(** Both tab boxes ticked, on a text with a tab. *)
Lemma no_tab_left_witness :
  let o := both_tab_rules false false false false true 4 [] [] in
  Cleaner.count_char 9 (Cleaner.standard_cleaning o [97; 9; 98]) = 0.
Proof.
  intros o.
  exact (proj2 (RuleEffects.no_tab_left o [97; 9; 98] (or_introl eq_refl))).
Defined.

Module SpaceFacts.

Import RuleFacts.

Lemma replace_absent (old : codepoint) (new s : str) :
  ~ In old s -> Py.replace old new s = s.
Proof.
  unfold Py.replace. induction s as [|c s IH]; intros H; [reflexivity|].
  cbn [flat_map]. destruct (Z.eqb_spec c old) as [->|_].
  - exfalso. apply H. now left.
  - rewrite IH; [reflexivity|]. intros Hin. apply H. now right.
Qed.

Lemma sub_runs_absent (cls : codepoint -> bool) (rep : str) (b : bool)
    (s : str) :
  Forall (fun c => cls c = false) s -> Py.sub_runs cls rep b s = s.
Proof.
  intros H. revert b.
  induction H as [|c s Hc Hs IH]; intros b; [reflexivity|].
  cbn [Py.sub_runs]. rewrite Hc. now rewrite IH.
Qed.

Lemma trim_one_line (t : str) :
  Forall (fun c => Py.islinebreak c = false) t -> trim t = Py.strip t.
Proof.
  intros H. unfold trim, Py.splitlines.
  rewrite splitlines_from_one_line by exact H. simpl.
  now destruct t.
Qed.

(** A collapsed text has no two spaces side by side, and does not start
    with a space when the run before it was already replaced. *)
Lemma sub_runs_single (b : bool) (s : str) :
  double_space (Py.sub_runs Py.isspace [32] b s) = false /\
  (b = true -> hd 0 (Py.sub_runs Py.isspace [32] b s) <> 32).
Proof.
  revert b. induction s as [|c s IH]; intros b.
  - simpl. split; [reflexivity|discriminate].
  - cbn [Py.sub_runs]. destruct (Py.isspace c) eqn:E.
    + destruct (IH true) as [H1 H2]. specialize (H2 eq_refl).
      destruct b; cbn [app]; [split; [exact H1|intros _; exact H2]|].
      split; [|discriminate]. destruct (Py.sub_runs Py.isspace [32] true s) as [|d r].
      * reflexivity.
      * cbn [hd] in H2.
        change (double_space (32 :: d :: r))
          with (((32 =? 32) && (d =? 32)) || double_space (d :: r)).
        replace (d =? 32) with false by lia.
        rewrite andb_false_r. exact H1.
    + destruct (IH false) as [H1 _].
      assert (Hc : c <> 32) by (intros ->; vm_compute in E; discriminate).
      split; [|now cbn [hd]].
      destruct (Py.sub_runs Py.isspace [32] false s) as [|d r].
      * reflexivity.
      * change (double_space (c :: d :: r))
          with (((c =? 32) && (d =? 32)) || double_space (d :: r)).
        replace (c =? 32) with false by lia. exact H1.
Qed.

Lemma double_space_tail (a : codepoint) (l : str) :
  double_space (a :: l) = false -> double_space l = false.
Proof.
  destruct l as [|d l]; [reflexivity|]. cbn [double_space].
  intros H. apply orb_false_elim in H. apply H.
Qed.

Lemma double_space_suffix (p l : str) :
  double_space (p ++ l) = false -> double_space l = false.
Proof.
  induction p as [|a p IH]; [easy|].
  intros H. apply IH. now apply double_space_tail in H.
Qed.

Lemma double_space_prefix (l q : str) :
  double_space (l ++ q) = false -> double_space l = false.
Proof.
  induction l as [|a l IH]; [reflexivity|].
  destruct l as [|d l]; [reflexivity|].
  cbn [app double_space]. intros H. apply orb_false_elim in H.
  destruct H as [H1 H2]. rewrite H1. simpl. now apply IH.
Qed.

(** With the box for extra spaces ticked and the one for invisible
    characters not, the cleaned text is the collapsed text, trimmed at both
    ends when trimming is ticked: the tab and newline rules find nothing to
    do; and it has no two spaces side by side. *)
Theorem collapsed_spaces (o : options) (text : str) :
  remove_spaces o = true ->
  remove_invisible o = false ->
  let collapsed := Py.sub_runs Py.isspace [32] false text in
  Cleaner.standard_cleaning o text
  = (if trim_lines o then Py.strip collapsed else collapsed) /\
  double_space (Cleaner.standard_cleaning o text) = false.
Proof.
  intros Ho Hi collapsed.
  assert (HP : forall x, In x collapsed -> Py.isspace x = false \/ x = 32).
  { intros x Hx. apply sub_runs_in in Hx.
    destruct Hx as [[_ Hx]|[[<-|[]] _]]; [now left|now right]. }
  assert (H9 : ~ In 9 collapsed).
  { intros H. now destruct (HP 9 H). }
  assert (H10 : Forall (fun c => (10 =? c) = false) collapsed).
  { apply Forall_forall. intros c Hc.
    destruct (HP c Hc) as [H| ->]; [|reflexivity].
    destruct (Z.eqb_spec 10 c) as [<-|]; [discriminate|reflexivity]. }
  assert (Hlb : Forall (fun c => Py.islinebreak c = false) collapsed).
  { apply Forall_forall. intros c Hc.
    destruct (HP c Hc) as [H| ->]; [|reflexivity].
    destruct (Py.islinebreak c) eqn:E; [|reflexivity].
    apply RuleEffects.linebreak_isspace in E. congruence. }
  assert (E : Cleaner.standard_cleaning o text
              = (if trim_lines o then Py.strip collapsed else collapsed)).
  { rewrite standard_cleaning_steps.
    unfold invisible_rule, trim_rule, newlines_rule, expand_tabs_rule,
      strip_tabs_rule, collapse_rule.
    rewrite Ho, Hi. fold collapsed.
    assert (E1 : (if remove_tabs o then Py.replace 9 [] collapsed
                  else collapsed) = collapsed).
    { destruct (remove_tabs o); [now apply replace_absent|reflexivity]. }
    rewrite E1.
    assert (E2 : (if replace_tabs o
                  then Py.replace 9 (repeat 32 (Z.to_nat (tab_spaces o)))
                         collapsed
                  else collapsed) = collapsed).
    { destruct (replace_tabs o); [now apply replace_absent|reflexivity]. }
    rewrite E2.
    assert (E3 : (if remove_newlines o
                  then Py.sub_runs (Z.eqb 10) [10] false collapsed
                  else collapsed) = collapsed).
    { destruct (remove_newlines o); [now apply sub_runs_absent|reflexivity]. }
    rewrite E3.
    destruct (trim_lines o); [now apply trim_one_line|reflexivity]. }
  split; [exact E|]. rewrite E.
  pose proof (proj1 (sub_runs_single false text)) as Hd. fold collapsed in Hd.
  destruct (trim_lines o); [|exact Hd].
  destruct (strip_infix collapsed) as (p & q & Hpq).
  rewrite Hpq in Hd.
  now apply double_space_suffix, double_space_prefix in Hd.
Qed.

End SpaceFacts.

Module TrimFacts.

Import RuleFacts.

Lemma lstrip_head (s : str) :
  match Py.lstrip s with
  | [] => True
  | c :: _ => Py.isspace c = false
  end.
Proof.
  induction s as [|c s IH]; simpl; [exact I|].
  destruct (Py.isspace c) eqn:E; [exact IH|exact E].
Qed.

Lemma lstrip_fixed (s : str) :
  match s with [] => True | c :: _ => Py.isspace c = false end ->
  Py.lstrip s = s.
Proof. destruct s as [|c s]; [easy|]. simpl. now intros ->. Qed.

Lemma lstrip_idem (s : str) : Py.lstrip (Py.lstrip s) = Py.lstrip s.
Proof. apply lstrip_fixed, lstrip_head. Qed.

(** Stripping a stripped line changes nothing. *)
Lemma strip_idem (s : str) : Py.strip (Py.strip s) = Py.strip s.
Proof.
  unfold Py.strip.
  set (a := Py.lstrip s). set (b := Py.lstrip (rev a)).
  assert (Hb : Py.lstrip (rev b) = rev b).
  { apply lstrip_fixed.
    destruct (lstrip_suffix (rev a)) as [q Hq]. fold b in Hq.
    assert (Ha : a = rev b ++ rev q).
    { rewrite <- rev_app_distr, <- Hq. now rewrite rev_involutive. }
    destruct (rev b) as [|c r]; [exact I|].
    pose proof (lstrip_head s) as Hs. fold a in Hs. now rewrite Ha in Hs. }
  rewrite Hb, rev_involutive. unfold b. now rewrite lstrip_idem.
Qed.

(** With the box for trimming ticked and the one for invisible characters
    not, the cleaned text is a sequence of lines joined by newlines, none of
    which starts or ends with white space or holds a line break. *)
Theorem trimmed_lines (o : options) (text : str) :
  trim_lines o = true ->
  remove_invisible o = false ->
  exists lines,
    Cleaner.standard_cleaning o text = Py.join [10] lines /\
    Forall (fun l => Py.strip l = l /\
                     Forall (fun c => Py.islinebreak c = false) l) lines.
Proof.
  intros Ho Hi. rewrite standard_cleaning_steps.
  unfold invisible_rule, trim_rule. rewrite Ho, Hi.
  set (t := newlines_rule o _).
  exists (map Py.strip (Py.splitlines t)). split; [reflexivity|].
  apply Forall_forall. intros l Hl. apply in_map_iff in Hl.
  destruct Hl as (l0 & <- & Hl0). split; [apply strip_idem|].
  apply Forall_forall. intros c Hc. apply strip_in in Hc.
  pose proof (splitlines_from_in [] t (Forall_nil _)) as Hall.
  rewrite Forall_forall in Hall. now destruct (Hall l0 Hl0 c Hc).
Qed.

(** Lengths *)

Lemma sub_runs_length (cls : codepoint -> bool) (r : codepoint) (b : bool)
    (s : str) :
  (List.length (Py.sub_runs cls [r] b s) <= List.length s)%nat.
Proof.
  revert b. induction s as [|c s IH]; intros b; [easy|].
  cbn [Py.sub_runs]. destruct (cls c).
  - rewrite length_app. specialize (IH true).
    destruct b; simpl; lia.
  - specialize (IH false). simpl. lia.
Qed.

Lemma delete_length (old : codepoint) (s : str) :
  (List.length (Py.replace old [] s) <= List.length s)%nat.
Proof.
  unfold Py.replace. induction s as [|c s IH]; [easy|].
  cbn [flat_map]. rewrite length_app.
  destruct (c =? old); simpl; lia.
Qed.

Lemma sub_class_space_length (cls : codepoint -> bool) (s : str) :
  List.length (Py.sub_class cls (fun _ => [32]) s) = List.length s.
Proof.
  unfold Py.sub_class. induction s as [|c s IH]; [easy|].
  cbn [flat_map]. rewrite length_app, IH. now destruct (cls c).
Qed.

Lemma strip_length (s : str) :
  (List.length (Py.strip s) <= List.length s)%nat.
Proof.
  destruct (strip_infix s) as (p & q & H).
  rewrite H at 2. rewrite !length_app. lia.
Qed.

Local Abbreviation weight ls :=
  (fold_right (fun l n => (List.length l + 1 + n)%nat) 0%nat ls).

Lemma splitlines_from_weight (cur s : str) :
  (weight (Py.splitlines_from cur s)
   <= List.length cur + List.length s + 1)%nat.
Proof.
  apply (splitlines_from_ind
           (fun cur s ls =>
              (weight ls <= List.length cur + List.length s + 1)%nat)).
  - intros cur0. destruct cur0 as [|a cur0]; [simpl; lia|].
    cbn [fold_right]. rewrite length_rev. lia.
  - intros cur0 c s0 _ IH. simpl in *. lia.
  - intros cur0 c s0 _ IH. cbn [fold_right]. rewrite length_rev.
    pose proof (after_break_length c s0). simpl in *. lia.
Qed.

Lemma join_weight (ps : list str) :
  (List.length (Py.join [10%Z] ps) + 1 <= weight ps + 1)%nat /\
  (ps <> [] -> (List.length (Py.join [10%Z] ps) + 1 <= weight ps)%nat).
Proof.
  induction ps as [|p ps [IH1 IH2]]; [split; [simpl; lia|easy]|].
  destruct ps as [|q ps].
  - simpl. split; intros; lia.
  - assert (H : (List.length (Py.join [10%Z] (q :: ps)) + 1
                 <= weight (q :: ps))%nat) by now apply IH2.
    change (Py.join [10%Z] (p :: q :: ps))
      with (p ++ [10%Z] ++ Py.join [10%Z] (q :: ps)).
    remember (Py.join [10%Z] (q :: ps)) as j eqn:Ej in *.
    cbn [fold_right] in *. rewrite !length_app. cbn [List.length].
    unfold str, codepoint in *. split; intros; lia.
Qed.

Lemma strip_weight (ls : list str) :
  (weight (map Py.strip ls) <= weight ls)%nat.
Proof.
  induction ls as [|l ls IH]; [easy|]. cbn [map fold_right].
  pose proof (strip_length l). lia.
Qed.

Lemma trim_length (t : str) :
  (List.length (trim t) <= List.length t)%nat.
Proof.
  unfold trim, Py.splitlines.
  pose proof (splitlines_from_weight [] t) as Hw.
  pose proof (strip_weight (Py.splitlines_from [] t)) as Hs.
  destruct (join_weight (map Py.strip (Py.splitlines_from [] t)))
    as [_ Hj].
  destruct (Py.splitlines_from [] t) as [|l ls] eqn:E; [simpl; lia|].
  assert (Hne : map Py.strip (l :: ls) <> []) by discriminate.
  specialize (Hj Hne). simpl List.length in Hw. lia.
Qed.

(** Unless tabs are replaced by spaces, the built-in rules never make the
    text longer. *)
Theorem never_longer (o : options) (text : str) :
  replace_tabs o = false ->
  Py.len (Cleaner.standard_cleaning o text) <= Py.len text.
Proof.
  intros Ho. rewrite standard_cleaning_steps. unfold Py.len.
  apply Nat2Z.inj_le.
  assert (H1 : (List.length (collapse_rule o text)
                <= List.length text)%nat).
  { unfold collapse_rule. destruct (remove_spaces o); [|lia].
    apply sub_runs_length. }
  set (t1 := collapse_rule o text) in *.
  assert (H2 : (List.length (strip_tabs_rule o t1) <= List.length t1)%nat).
  { unfold strip_tabs_rule. destruct (remove_tabs o); [|lia].
    apply delete_length. }
  set (t2 := strip_tabs_rule o t1) in *.
  assert (H3 : expand_tabs_rule o t2 = t2).
  { unfold expand_tabs_rule. now rewrite Ho. }
  rewrite H3.
  assert (H4 : (List.length (newlines_rule o t2) <= List.length t2)%nat).
  { unfold newlines_rule. destruct (remove_newlines o); [|lia].
    apply sub_runs_length. }
  set (t4 := newlines_rule o t2) in *.
  assert (H5 : (List.length (trim_rule o t4) <= List.length t4)%nat).
  { unfold trim_rule. destruct (trim_lines o); [|lia]. apply trim_length. }
  set (t5 := trim_rule o t4) in *.
  assert (H6 : List.length (invisible_rule o t5) = List.length t5).
  { unfold invisible_rule. destruct (remove_invisible o); [|reflexivity].
    apply sub_class_space_length. }
  lia.
Qed.

End TrimFacts.

(** ** More on the clean handler *)

Module CleanMore.

Import HistoryFacts.

(** What [adopted] leaves in the fields outside the history: the counts and
    the rendering are those of the text as the widget gives it back. *)
Lemma adopted_display (t : str) (w : window) :
  input_text (adopted t w) = t /\
  stats_label (adopted t w)
  = (Cleaner.count_char 32 (toPlainText t),
     Cleaner.count_char 9 (toPlainText t),
     Cleaner.count_char 10 (toPlainText t)) /\
  status_bar (adopted t w) = "Whitespace and watermarks cleaned"%string /\
  match toPlainText t with
  | [] => output_text (adopted t w) = output_text w /\
          dialogs (adopted t w)
          = dialogs w ++ [("Warning", "Input text is empty!")]%string
  | _ => output_text (adopted t w)
         = Cleaner.visible_text (toPlainText t) /\
         dialogs (adopted t w) = dialogs w
  end.
Proof.
  unfold adopted, Cleaner.input_setPlainText, Cleaner.detect_whitespace,
    Cleaner.update_stats, mbind, get, modify, showMessage, warning.
  cbn -[toPlainText Cleaner.count_char Cleaner.visible_text].
  destruct (toPlainText t) eqn:E;
    cbn -[toPlainText Cleaner.count_char Cleaner.visible_text];
    rewrite ?E; repeat split; reflexivity.
Qed.


Section Engine.

Variable Regex : Type.
Variable re_compile : str -> result Regex.
Variable regex_sub : Regex -> str -> str -> result str.

Local Abbreviation clean_whitespace :=
  (Cleaner.clean_whitespace Regex re_compile regex_sub).
Local Abbreviation custom_of := (custom_step Regex re_compile regex_sub).

(** The ways a clean ends. *)
Lemma clean_whitespace_eq (o : options) (w : window) :
  clean_whitespace o w
  = match toPlainText (input_text w) with
    | [] => warning "Warning" "Input text is empty!" w
    | _ =>
        match custom_of o
                (Cleaner.standard_cleaning o (toPlainText (input_text w)))
        with
        | inl ReError => warning "Error" "Invalid regex pattern!" w
        | inl e => (inl e, w)
        | inr t =>
            (inr tt, adopted t (recorded (toPlainText (input_text w)) w))
        end
    end.
Proof.
  remember (clean_whitespace o w) as res eqn:Eres.
  unfold Cleaner.clean_whitespace, mbind at 1, get in Eres.
  cbv beta iota zeta in Eres.
  destruct (toPlainText (input_text w)) as [|c text] eqn:Etext;
    [exact Eres|].
  fold (custom_of o (Cleaner.standard_cleaning o (c :: text))) in Eres.
  destruct (custom_of o (Cleaner.standard_cleaning o (c :: text)))
    as [e|t] eqn:Ec.
  - subst res. now destruct e.
  - subst res. apply record_then_adopt.
Qed.

(** A clean does all or nothing.  On an empty input, and when the custom
    substitution raises [re.error], it returns None after one box, Warning
    or Error, and leaves every other field alone.  When the custom
    substitution raises another exception the handler raises it and the
    window stays exactly as it was, with no box.  Otherwise it appends the
    text it read to the history cut after the cursor, moves the cursor onto
    it and gives the cleaned text to the input; the counts are those of the
    text that the widget gives back, and the rendering follows unless that
    text is empty, when the old rendering stays and the box for empty input
    is shown. *)
Theorem clean_all_or_nothing (o : options) (w : window) :
  let text := toPlainText (input_text w) in
  let w' := snd (clean_whitespace o w) in
  let same_but_for_box (title msg : string) :=
    fst (clean_whitespace o w) = inr tt /\
    input_text w' = input_text w /\ output_text w' = output_text w /\
    detailed_stats w' = detailed_stats w /\
    history w' = history w /\ history_index w' = history_index w /\
    stats_label w' = stats_label w /\ status_bar w' = status_bar w /\
    dialogs w' = dialogs w ++ [(title, msg)] in
  match text, custom_of o (Cleaner.standard_cleaning o text) with
  | [], _ => same_but_for_box "Warning"%string "Input text is empty!"%string
  | _ :: _, inl ReError =>
      same_but_for_box "Error"%string "Invalid regex pattern!"%string
  | _ :: _, inl e => clean_whitespace o w = (inl e, w)
  | _ :: _, inr t =>
      fst (clean_whitespace o w) = inr tt /\
      input_text w' = t /\
      history w'
      = Py.slice_to (history w) (history_index w + 1) ++ [text] /\
      history_index w' = history_index w + 1 /\
      detailed_stats w' = detailed_stats w /\
      stats_label w'
      = (Cleaner.count_char 32 (toPlainText t),
         Cleaner.count_char 9 (toPlainText t),
         Cleaner.count_char 10 (toPlainText t)) /\
      status_bar w' = "Whitespace and watermarks cleaned"%string /\
      match toPlainText t with
      | [] => output_text w' = output_text w /\
              dialogs w'
              = dialogs w ++ [("Warning", "Input text is empty!")]%string
      | _ => output_text w' = Cleaner.visible_text (toPlainText t) /\
             dialogs w' = dialogs w
      end
  end.
Proof.
  intros text w' box. unfold box, w', text. clear box w' text.
  rewrite clean_whitespace_eq.
  destruct (toPlainText (input_text w)) as [|c text] eqn:Etext.
  - simpl. now destruct (custom_of o (Cleaner.standard_cleaning o [])).
  - destruct (custom_of o (Cleaner.standard_cleaning o (c :: text)))
      as [e|t].
    + destruct e; simpl; repeat split; reflexivity.
    + cbn [fst snd].
      destruct (adopted_display t (recorded (c :: text) w))
        as (H1 & H2 & H3 & H4).
      destruct (adopted_fields t (recorded (c :: text) w)) as (H5 & H6).
      rewrite H1, H2, H3, H5, H6.
      assert (H7 : detailed_stats (adopted t (recorded (c :: text) w))
                   = detailed_stats w).
      { unfold adopted, Cleaner.input_setPlainText,
          Cleaner.detect_whitespace, Cleaner.update_stats, mbind, get,
          modify, showMessage, warning.
        simpl. now destruct (toPlainText t). }
      rewrite H7. repeat split.
      destruct (toPlainText t); exact H4.
Qed.

Lemma clean_success (o : options) (w : window) (t : str) :
  input_text w <> [] ->
  custom_of o (Cleaner.standard_cleaning o (toPlainText (input_text w)))
  = ok t ->
  clean_whitespace o w
  = (inr tt, adopted t (recorded (toPlainText (input_text w)) w)).
Proof.
  intros Hne Hc. rewrite clean_whitespace_eq, Hc.
  destruct (toPlainText (input_text w)) eqn:E; [|reflexivity].
  now apply (proj1 (QtFacts.toPlainText_nil _)) in E.
Qed.

(** The first clean cannot be undone: from a window without history, a
    clean that succeeds stores the text it read from the input as the only
    entry, with the cursor on it, and then neither undo nor redo does
    anything; the text before the clean stays out of reach. *)
Theorem first_clean_cannot_be_undone (o : options) (w : window) (t : str) :
  history_index w = -1 ->
  input_text w <> [] ->
  custom_of o (Cleaner.standard_cleaning o (toPlainText (input_text w)))
  = ok t ->
  let w' := snd (clean_whitespace o w) in
  history w' = [toPlainText (input_text w)] /\ history_index w' = 0 /\
  input_text w' = t /\
  Cleaner.undo w' = (inr tt, w') /\ Cleaner.redo w' = (inr tt, w').
Proof.
  intros Hi Hne Hc w'. unfold w'. rewrite (clean_success o w t Hne Hc).
  cbn [snd]. set (text := toPlainText (input_text w)).
  destruct (adopted_fields t (recorded text w)) as (H5 & H6).
  destruct (adopted_display t (recorded text w)) as (H1 & _).
  assert (Hh : history (recorded text w) = [text]).
  { unfold recorded. simpl. now rewrite Hi. }
  assert (Hx : history_index (recorded text w) = 0).
  { unfold recorded. simpl. now rewrite Hi. }
  rewrite Hh in H5. rewrite Hx in H6.
  repeat split; try assumption.
  - apply undo_noop. lia.
  - apply redo_noop. rewrite H5, H6. unfold Py.len. simpl. lia.
Qed.


End Engine.
End CleanMore.

(** ** More on the history *)

Module HistoryMore.

Import HistoryFacts.

(** Undo and then redo comes back to the same cursor and the same history,
    and leaves in the input the entry at the cursor, whatever text the input
    held before. *)
Theorem undo_then_redo (w : window) :
  history_ok w ->
  0 < history_index w ->
  let w1 := snd (Cleaner.undo w) in
  let w2 := snd (Cleaner.redo w1) in
  history_index w1 = history_index w - 1 /\
  Py.getitem (history w) (history_index w - 1) = ok (input_text w1) /\
  history w2 = history w /\
  history_index w2 = history_index w /\
  Py.getitem (history w) (history_index w) = ok (input_text w2).
Proof.
  intros Hok Hpos w1 w2. pose proof Hok as [Hlo Hhi].
  destruct (getitem_in_range (history w) (history_index w - 1)) as [s Hs];
    [lia|].
  destruct (getitem_in_range (history w) (history_index w)) as [s' Hs'];
    [lia|].
  pose proof (undo_step w s Hpos Hs) as E1.
  destruct (restored_fields "Undo applied" (history_index w - 1) s w)
    as (Hh1 & Hi1 & Ht1).
  assert (Ew1 : w1 = restored "Undo applied" (history_index w - 1) s w)
    by (unfold w1; now rewrite E1).
  rewrite <- Ew1 in Hh1, Hi1, Ht1.
  assert (E2 : Cleaner.redo w1
               = (inr tt, restored "Redo applied" (history_index w1 + 1)
                            s' w1)).
  { apply redo_step; rewrite Hh1, Hi1; [lia|].
    now replace (history_index w - 1 + 1) with (history_index w) by lia. }
  destruct (restored_fields "Redo applied" (history_index w1 + 1) s' w1)
    as (Hh2 & Hi2 & Ht2).
  assert (Ew2 : w2 = restored "Redo applied" (history_index w1 + 1) s' w1)
    by (unfold w2; now rewrite E2).
  rewrite <- Ew2 in Hh2, Hi2, Ht2.
  repeat split.
  - exact Hi1.
  - now rewrite Ht1.
  - now rewrite Hh2.
  - lia.
  - now rewrite Ht2.
Qed.

(** Undo and redo never change an entry of the history, in any window, and
    they move the cursor by one step at most. *)
Theorem undo_redo_keep_history (w : window) :
  history (snd (Cleaner.undo w)) = history w /\
  history (snd (Cleaner.redo w)) = history w /\
  history_index w - 1 <= history_index (snd (Cleaner.undo w))
                      <= history_index w /\
  history_index w <= history_index (snd (Cleaner.redo w))
                  <= history_index w + 1.
Proof.
  assert (Hu : history (snd (Cleaner.undo w)) = history w /\
               history_index w - 1 <= history_index (snd (Cleaner.undo w))
                                   <= history_index w).
  { destruct (Z_lt_le_dec 0 (history_index w)) as [Hlt|Hle].
    - destruct (Py.getitem (history w) (history_index w - 1)) as [e|s] eqn:E.
      + unfold Cleaner.undo, mbind, get, lift, modify. simpl.
        replace (0 <? history_index w) with true by lia. simpl.
        rewrite E. simpl. split; [reflexivity|lia].
      + rewrite (undo_step w s Hlt E). simpl.
        destruct (restored_fields "Undo applied" (history_index w - 1) s w)
          as (-> & -> & _). split; [reflexivity|lia].
    - rewrite (undo_noop w Hle). simpl. split; [reflexivity|lia]. }
  assert (Hr : history (snd (Cleaner.redo w)) = history w /\
               history_index w <= history_index (snd (Cleaner.redo w))
                               <= history_index w + 1).
  { destruct (Z_lt_le_dec (history_index w) (Py.len (history w) - 1))
      as [Hlt|Hle].
    - destruct (Py.getitem (history w) (history_index w + 1)) as [e|s] eqn:E.
      + unfold Cleaner.redo, mbind, get, lift, modify. simpl.
        replace (history_index w <? Py.len (history w) - 1) with true by lia.
        simpl. rewrite E. simpl. split; [reflexivity|lia].
      + rewrite (redo_step w s Hlt E). simpl.
        destruct (restored_fields "Redo applied" (history_index w + 1) s w)
          as (-> & -> & _). split; [reflexivity|lia].
    - rewrite (redo_noop w Hle). simpl. split; [reflexivity|lia]. }
  tauto.
Qed.

(** Clear works from any window: it empties the three texts and the
    history, puts the cursor at -1 and the counts at 0, and after it undo
    and redo do nothing. *)
Theorem clear_text_resets (w : window) :
  Cleaner.clear_text w = (inr tt, cleared w) /\
  history_ok (cleared w) /\
  Cleaner.undo (cleared w) = (inr tt, cleared w) /\
  Cleaner.redo (cleared w) = (inr tt, cleared w).
Proof.
  split; [reflexivity|]. split; [unfold history_ok; simpl; lia|].
  split; [apply undo_noop|apply redo_noop]; simpl; lia.
Qed.

End HistoryMore.

(** ** Presets and cleaning without a custom pattern *)

Module PresetFacts.
Section Engine.

Variable Regex : Type.
Variable re_compile : str -> result Regex.
Variable regex_sub : Regex -> str -> str -> result str.

Local Abbreviation clean_whitespace :=
  (Cleaner.clean_whitespace Regex re_compile regex_sub).

(** Without a custom pattern a clean of a non-empty input gives the input
    the result of the built-in rules on the text it read; then the tab count
    of the statistics is 0 when a tab box is ticked, and the occurrence pass
    of the scan finds nothing, in the text given as in the text read back,
    when the box for invisible characters is ticked. *)
Theorem clean_without_pattern (o : options) (w : window) :
  regex_input o = [] ->
  input_text w <> [] ->
  let w' := snd (clean_whitespace o w) in
  input_text w' = Cleaner.standard_cleaning o (toPlainText (input_text w)) /\
  (remove_tabs o = true \/ replace_tabs o = true ->
   snd (fst (stats_label w')) = 0) /\
  (remove_invisible o = true ->
   Scan.scan_invisible (input_text w') = [] /\
   Scan.scan_invisible (toPlainText (input_text w')) = []).
Proof.
  intros Hp Hne w'. set (text := toPlainText (input_text w)).
  assert (Hc : custom_step Regex re_compile regex_sub o
                 (Cleaner.standard_cleaning o text)
               = ok (Cleaner.standard_cleaning o text)).
  { unfold custom_step. now rewrite Hp. }
  pose proof (CleanMore.clean_success Regex re_compile regex_sub o w _
                Hne Hc) as E.
  destruct (CleanMore.adopted_display
              (Cleaner.standard_cleaning o text)
              (recorded text w)) as (H1 & H2 & _).
  unfold w'. rewrite E. cbn [snd]. fold text. rewrite H1, H2.
  cbn [fst snd].
  split; [reflexivity|]. split.
  - intros Ho. apply RuleEffects.count_char_absent.
    apply QtFacts.toPlainText_no_tab.
    now apply RuleEffects.standard_cleaning_no_tab.
  - intros Ho. rewrite !ScanFacts.scan_invisible_filter.
    pose proof (RuleEffects.standard_cleaning_no_watermark o text Ho) as Hw.
    rewrite Hw.
    rewrite (QtFacts.toPlainText_filter_nil unicode_pattern _
               eq_refl eq_refl Hw).
    split; reflexivity.
Qed.


End Engine.
End PresetFacts.

(** ** The highlighter *)

Module HighlightFacts.

Lemma setFormat_from_after (i start count : Z) (format : char_format)
    (formats : list (option char_format)) :
  start + count <= i -> setFormat_from i start count format formats = formats.
Proof.
  revert i. induction formats as [|f fs IH]; intros i Hi; [reflexivity|].
  cbn [setFormat_from].
  replace ((start <=? i) && (i <? start + count)) with false by lia.
  rewrite IH by lia. reflexivity.
Qed.

Lemma setFormat_from_at (j : Z) (format : char_format)
    (fp : list (option char_format)) (f : option char_format)
    (fs : list (option char_format)) :
  setFormat_from j (j + Py.len fp) 1 format (fp ++ f :: fs)
  = fp ++ Some format :: fs.
Proof.
  revert j. induction fp as [|a fp IH]; intros j.
  - change (Py.len (@nil (option char_format))) with 0. cbn [app setFormat_from].
    replace ((j + 0 <=? j) && (j <? j + 0 + 1)) with true by lia.
    rewrite setFormat_from_after by lia. reflexivity.
  - cbn [app setFormat_from].
    assert (Hl : Py.len (a :: fp) = Py.len fp + 1)
      by (unfold Py.len; cbn [List.length]; lia).
    pose proof (HistoryFacts.len_nonneg fp) as Hn.
    rewrite Hl.
    replace ((j + (Py.len fp + 1) <=? j) && (j <? j + (Py.len fp + 1) + 1))
      with false by lia.
    replace (j + (Py.len fp + 1)) with (j + 1 + Py.len fp) by lia.
    now rewrite IH.
Qed.

(** The matches of one rule, formatted one after the other, give the rule
    applied to every character, on the formats that stand at the positions
    of the characters. *)
Lemma rule_fold (alts : list codepoint) (format : char_format) (text : str)
    (fp fs : list (option char_format)) :
  (List.length text <= List.length fs)%nat ->
  fold_left (fun formats m => setFormat (fst m) (snd m - fst m) format formats)
    (finditer_from alts (Py.len fp) text) (fp ++ fs)
  = fp ++ rule_formats alts format text fs.
Proof.
  revert fp fs. induction text as [|c text IH]; intros fp fs Hlen.
  - now destruct fs.
  - destruct fs as [|f fs]; [cbn [List.length] in Hlen; lia|].
    cbn [List.length] in Hlen. apply le_S_n in Hlen.
    cbn [finditer_from rule_formats].
    assert (Hl : forall x, Py.len (fp ++ [x]) = Py.len fp + 1).
    { intros x. rewrite HistoryFacts.len_app. reflexivity. }
    destruct (Py.mem c alts).
    + cbn [fold_left fst snd].
      replace (Py.len fp + 1 - Py.len fp) with 1 by lia.
      unfold setFormat at 2.
      change (Py.len fp) with (0 + Py.len fp) at 2.
      rewrite setFormat_from_at.
      rewrite <- (Hl (Some format)).
      change (fp ++ Some format :: fs) with (fp ++ [Some format] ++ fs).
      rewrite app_assoc, IH by exact Hlen.
      now rewrite <- app_assoc.
    + rewrite <- (Hl f).
      change (fp ++ f :: fs) with (fp ++ [f] ++ fs).
      rewrite app_assoc, IH by exact Hlen.
      now rewrite <- app_assoc.
Qed.

Lemma rule_formats_length (alts : list codepoint) (format : char_format)
    (text : str) (fs : list (option char_format)) :
  List.length (rule_formats alts format text fs) = List.length fs.
Proof.
  revert fs. induction text as [|c text IH]; intros [|f fs]; simpl; auto.
Qed.

(** A rule leaves alone the formats that stand after the last position of
    a character. *)
Lemma rule_formats_app (alts : list codepoint) (format : char_format)
    (text : str) (fs gs : list (option char_format)) :
  List.length fs = List.length text ->
  rule_formats alts format text (fs ++ gs)
  = rule_formats alts format text fs ++ gs.
Proof.
  revert fs. induction text as [|c text IH]; intros [|f fs] Hlen;
    try discriminate.
  - now destruct gs.
  - injection Hlen as Hlen. cbn [app rule_formats]. now rewrite IH.
Qed.

Lemma rules_by_glyph (text : str) :
  rule_formats [DIAMOND; REFERENCE_MARK] invisible_format text
    (rule_formats [PILCROW] newline_format text
       (rule_formats [RIGHT_ARROW] tab_format text
          (rule_formats [MIDDLE_DOT] space_format text
             (repeat None (List.length text)))))
  = map glyph_format text.
Proof.
  induction text as [|c text IH]; [reflexivity|].
  cbn [List.length repeat rule_formats map]. rewrite IH. f_equal.
  unfold glyph_format, Py.mem. cbn [existsb].
  destruct (Z.eqb_spec c MIDDLE_DOT) as [->|H1]; [reflexivity|].
  destruct (Z.eqb_spec c RIGHT_ARROW) as [->|H2]; [reflexivity|].
  destruct (Z.eqb_spec c PILCROW) as [->|H3]; [reflexivity|].
  destruct (c =? DIAMOND), (c =? REFERENCE_MARK); reflexivity.
Qed.

Lemma highlightBlock_eq (text : str) :
  highlightBlock text
  = map glyph_format text
    ++ repeat None (List.length (filter (fun c => 0xFFFF <? c) text)).
Proof.
  unfold highlightBlock, highlighting_rules, utf16_len.
  cbn [fold_left fst snd].
  set (k := List.length (filter (fun c => 0xFFFF <? c) text)).
  pose proof (fun alts format fs =>
                rule_fold alts format text [] fs) as R.
  cbn [app] in R. change (Py.len (@nil (option char_format))) with 0 in R.
  assert (Hr : List.length (repeat (@None char_format)
                              (List.length text + k))
               = (List.length text + k)%nat) by apply repeat_length.
  rewrite (R [MIDDLE_DOT] space_format) by (rewrite Hr; lia).
  rewrite (R [RIGHT_ARROW] tab_format)
    by (rewrite !rule_formats_length, Hr; lia).
  rewrite (R [PILCROW] newline_format)
    by (rewrite !rule_formats_length, Hr; lia).
  rewrite (R [DIAMOND; REFERENCE_MARK] invisible_format)
    by (rewrite !rule_formats_length, Hr; lia).
  clear R Hr. rewrite repeat_app.
  rewrite !rule_formats_app
    by (rewrite ?rule_formats_length; apply repeat_length).
  now rewrite rules_by_glyph.
Qed.

(** [highlightBlock] formats the block by position.  The block has one
    format per UTF-16 unit, and the format at a position is that of the
    glyph of the character with that index: blue for the middle dot, red
    for the arrow, green for the pilcrow, purple on yellow for the diamond
    and the reference mark, nothing for any other character; the positions
    after the last index, one per character above U+FFFF, get nothing.  So
    when no character of the block is above U+FFFF every character has the
    format of its glyph and no other, and after a character above U+FFFF
    the formats stand one unit early: in a block of an emoji and a middle
    dot the second half of the emoji is blue and the dot has no format. *)
Theorem highlightBlock_by_glyph (text : str) :
  highlightBlock text
  = map glyph_format text
    ++ repeat None (List.length (filter (fun c => 0xFFFF <? c) text)) /\
  (forallb (fun c => c <=? 0xFFFF) text = true ->
   highlightBlock text = map glyph_format text) /\
  highlightBlock [0x1F600; MIDDLE_DOT] = [None; Some space_format; None].
Proof.
  split; [apply highlightBlock_eq|]. split; [|reflexivity].
  intros Hb. rewrite highlightBlock_eq.
  replace (filter (fun c => 0xFFFF <? c) text) with (@nil codepoint);
    [apply app_nil_r|].
  symmetry. induction text as [|c text IH]; [reflexivity|].
  cbn [forallb] in Hb. apply andb_true_iff in Hb. destruct Hb as [Hc Ht].
  cbn [filter]. replace (0xFFFF <? c) with false by lia. now apply IH.
Qed.

End HighlightFacts.

(** ** The properties above on concrete inputs *)

(** A zero-width space between two letters becomes a space. *)
Lemma no_watermark_left_witness :
  Scan.scan_invisible
    (Cleaner.standard_cleaning (rules false false false false true false)
       [97; ZWSP; 98]) = [].
Proof.
  exact (proj2 (RuleEffects.no_watermark_left
                  (rules false false false false true false)
                  [97; ZWSP; 98] eq_refl)).
Defined.

(** A tab and a no-break space both come out as plain spaces. *)
Lemma only_plain_spaces_witness :
  Forall (fun x => Py.isspace x = true -> x = 32)
    (Cleaner.standard_cleaning (rules true false false false false false)
       [97; 9; 98; NBSP; 99]).
Proof.
  exact (RuleEffects.only_plain_spaces
           (rules true false false false false false)
           [97; 9; 98; NBSP; 99] eq_refl).
Defined.

(** Three spaces and a newline collapse to single spaces. *)
Lemma collapsed_spaces_witness :
  double_space
    (Cleaner.standard_cleaning (rules true true true true false false)
       [32; 97; 32; 32; 32; 98; 10; 99; 32]) = false.
Proof.
  exact (proj2 (SpaceFacts.collapsed_spaces
                  (rules true true true true false false)
                  [32; 97; 32; 32; 32; 98; 10; 99; 32] eq_refl eq_refl)).
Defined.

(** A carriage return and a line separator become newlines. *)
Lemma only_newline_breaks_witness :
  Forall (fun x => Py.islinebreak x = true -> x = 10)
    (Cleaner.standard_cleaning (rules false false false true false false)
       [97; 13; 98; 8232; 99]).
Proof.
  exact (RuleEffects.only_newline_breaks
           (rules false false false true false false)
           [97; 13; 98; 8232; 99] eq_refl).
Defined.

(** Two lines with spaces around them. *)
Lemma trimmed_lines_witness :
  exists lines,
    Cleaner.standard_cleaning (rules false false false true false false)
      [32; 97; 32; 10; 9; 98] = Py.join [10] lines /\
    Forall (fun l => Py.strip l = l /\
                     Forall (fun c => Py.islinebreak c = false) l) lines.
Proof.
  exact (TrimFacts.trimmed_lines
           (rules false false false true false false)
           [32; 97; 32; 10; 9; 98] eq_refl eq_refl).
Defined.

(** Every rule but the expansion of tabs, on a text of nine characters. *)
Lemma never_longer_witness :
  Py.len (Cleaner.standard_cleaning (rules true true true true true false)
            [32; 97; 9; 9; 98; 10; 10; ZWSP; 32]) <= 9.
Proof.
  exact (TrimFacts.never_longer (rules true true true true true false)
           [32; 97; 9; 9; 98; 10; 10; ZWSP; 32] eq_refl).
Defined.

(** The first clean of ["a  b"]: the input becomes ["a b"], and undo leaves
    it so. *)
Lemma first_clean_cannot_be_undone_witness :
  let w := set_input_text (lit "a  b") init_window in
  let o := rules true false false false false false in
  let w' := snd (Cleaner.clean_whitespace str literal_compile literal_sub
                   o w) in
  input_text w' = lit "a b" /\ Cleaner.undo w' = (inr tt, w').
Proof.
  intros w o w'.
  assert (Hi : history_index w = -1) by reflexivity.
  assert (Hne : input_text w <> []) by discriminate.
  assert (Hc : custom_step str literal_compile literal_sub o
                 (Cleaner.standard_cleaning o (input_text w))
               = ok (lit "a b")) by reflexivity.
  pose proof (CleanMore.first_clean_cannot_be_undone str literal_compile
                literal_sub o w (lit "a b") Hi Hne Hc) as H.
  split; [exact (proj1 (proj2 (proj2 H)))
         |exact (proj1 (proj2 (proj2 (proj2 H))))].
Defined.


(** Two entries with the cursor on the second. *)
Lemma undo_then_redo_witness :
  let w := set_history_index 1
             (set_history [lit "one"; lit "two"] init_window) in
  Py.getitem (history w) (history_index w)
  = ok (input_text (snd (Cleaner.redo (snd (Cleaner.undo w))))).
Proof.
  intros w.
  assert (Hok : history_ok w) by (unfold history_ok; simpl; lia).
  assert (Hpos : 0 < history_index w) by (simpl; lia).
  exact (proj2 (proj2 (proj2 (proj2
           (HistoryMore.undo_then_redo w Hok Hpos))))).
Defined.

(** Cleaning ["a"], tab, ["b"] with the tab box ticked and no pattern. *)
Lemma clean_without_pattern_witness :
  let o := rules false true false false false false in
  let w := set_input_text [97; 9; 98] init_window in
  snd (fst (stats_label
              (snd (Cleaner.clean_whitespace str literal_compile
                      literal_sub o w)))) = 0.
Proof.
  intros o w.
  assert (Hp : regex_input o = []) by reflexivity.
  assert (Hne : input_text w <> []) by discriminate.
  exact (proj1 (proj2 (PresetFacts.clean_without_pattern str
                         literal_compile literal_sub o w Hp Hne))
           (or_introl eq_refl)).
Defined.


(** The tokens ["a"], ["b"], ["a"]: the counter holds ["a"] with 2 and
    ["b"] with 1, in this order. *)
Lemma Counter_counts_witness :
  let ws := [lit "a"; lit "b"; lit "a"] in
  In (lit "a", 2) (Scan.Counter ws) /\
  map fst (Scan.Counter ws) = [lit "a"; lit "b"].
Proof.
  intros ws.
  pose proof (ScanMore.Counter_counts ws) as (Ho & _ & _ & Hc & _).
  split.
  - apply (proj2 (Hc (lit "a") 2)).
    split; [now left|reflexivity].
  - rewrite Ho. reflexivity.
Defined.

(** A rendered line without a character above U+FFFF: a letter, a middle
    dot, an arrow and a pilcrow. *)
Lemma highlightBlock_by_glyph_witness :
  highlightBlock [97; MIDDLE_DOT; RIGHT_ARROW; PILCROW]
  = [None; Some space_format; Some tab_format; Some newline_format].
Proof.
  exact (proj1 (proj2 (HighlightFacts.highlightBlock_by_glyph
                         [97; MIDDLE_DOT; RIGHT_ARROW; PILCROW]))
           eq_refl).
Defined.
